(** * cert_verifier.connectors: transaction lookup connectors

    A shallow embedding of [src/cert_verifier/connectors.py] and the
    properties of its three provider connectors.

    - [Py]: the Python values a decoded JSON body is made of, the
      exceptions, and the builtins the module calls ([dict.get],
      subscripting, slicing, [int], [float], truthiness, [set.add],
      [%] formatting).
    - [Connectors]: the module itself, one sub-module per class, every
      method under its own name.
    - the properties, stated on those definitions. *)

From Stdlib Require Import ZArith List String Ascii Bool Lia.
From Stdlib Require Import Floats.SpecFloat.
From Stdlib Require Import Sorting.Permutation.
Import ListNotations.

#[local] Set Warnings "-register-all".
Local Open Scope string_scope.
Local Open Scope Z_scope.

(* ================================================================== *)
(** * Python values and builtins *)
(* ================================================================== *)

Module Py.

(** A Python [float] is an IEEE-754 binary64 number. *)
Definition prec : Z := 53.
Definition emax : Z := 1024.

(** What [response.json()] can return: [None], [bool], [int], [float],
    [str], [list], and [dict] with string keys.  A character is one
    [ascii], read as a code point below 256.  A dict is the list of its
    items in insertion order; its keys are pairwise different. *)
Inductive pyval : Type :=
| PNone
| PBool (b : bool)
| PInt (z : Z)
| PFloat (f : spec_float)
| PStr (s : string)
| PList (l : list pyval)
| PDict (d : list (string * pyval)).

(** The exceptions that can leave the module.  [InvalidTransactionError]
    is the one of [cert_verifier.errors]; [Exception] is the bare one the
    constructors raise; the others are raised by builtins. *)
Inductive exn : Type :=
| InvalidTransactionError (msg : string)
| Exception (msg : string)
| KeyError
| TypeError
| ValueError
| AttributeError
| IndexError
| OverflowError.

(** A computation that returns or raises. *)
Inductive res (A : Type) : Type :=
| Ok (a : A)
| Raise (e : exn).
Arguments Ok {A} a.
Arguments Raise {A} e.

Definition bind {A B : Type} (c : res A) (k : A -> res B) : res B :=
  match c with
  | Ok a => k a
  | Raise e => Raise e
  end.

Notation "x <- c ;; k" := (bind c (fun x => k))
  (at level 61, c at next level, right associativity).

(** ** Dictionaries *)

Fixpoint lookup (k : string) (d : list (string * pyval)) : option pyval :=
  match d with
  | [] => None
  | (k', v) :: d' => if String.eqb k k' then Some v else lookup k d'
  end.

(** [o.get(k, default)]: only a dict has the method. *)
Definition get (o : pyval) (k : string) (default : pyval) : res pyval :=
  match o with
  | PDict d =>
      match lookup k d with
      | Some v => Ok v
      | None => Ok default
      end
  | _ => Raise AttributeError
  end.

(** [o[k]] for a string [k]: a dict looks the key up; a list or a string
    refuses a string index; nothing else is subscriptable. *)
Definition getitem (o : pyval) (k : string) : res pyval :=
  match o with
  | PDict d =>
      match lookup k d with
      | Some v => Ok v
      | None => Raise KeyError
      end
  | _ => Raise TypeError
  end.

(** [o[0]]: the first element of a list, the first character of a
    string; a JSON dict has no integer key. *)
Definition getitem0 (o : pyval) : res pyval :=
  match o with
  | PList (x :: _) => Ok x
  | PList [] => Raise IndexError
  | PStr (String c _) => Ok (PStr (String c EmptyString))
  | PStr EmptyString => Raise IndexError
  | PDict _ => Raise KeyError
  | _ => Raise TypeError
  end.

Fixpoint drop_chars (n : nat) (s : string) : string :=
  match n, s with
  | O, _ => s
  | S n', String _ s' => drop_chars n' s'
  | S _, EmptyString => EmptyString
  end.

(** [o[n:]] for a literal [n >= 0]: strings and lists are sliced, a
    slice is no dict key, the rest is not subscriptable. *)
Definition slice_from (o : pyval) (n : nat) : res pyval :=
  match o with
  | PStr s => Ok (PStr (drop_chars n s))
  | PList l => Ok (PList (skipn n l))
  | _ => Raise TypeError
  end.

(** [for o in x]: the elements of a list, the characters of a string,
    the keys of a dict. *)
Fixpoint chars (s : string) : list pyval :=
  match s with
  | EmptyString => []
  | String c s' => PStr (String c EmptyString) :: chars s'
  end.

Definition iter (x : pyval) : res (list pyval) :=
  match x with
  | PList l => Ok l
  | PStr s => Ok (chars s)
  | PDict d => Ok (map (fun kv => PStr (fst kv)) d)
  | _ => Raise TypeError
  end.

(** ** Truth value *)

Definition float_is_zero (f : spec_float) : bool :=
  match f with
  | S754_zero _ => true
  | _ => false
  end.

Definition truthy (v : pyval) : bool :=
  match v with
  | PNone => false
  | PBool b => b
  | PInt z => negb (z =? 0)
  | PFloat f => negb (float_is_zero f)
  | PStr EmptyString => false
  | PStr _ => true
  | PList [] => false
  | PList _ => true
  | PDict [] => false
  | PDict _ => true
  end.

(** ** Numbers *)

(** The integer a float stands for, when it stands for one. *)
Definition float_integral (f : spec_float) : option Z :=
  match f with
  | S754_zero _ => Some 0
  | S754_finite s m e =>
      if 0 <=? e then Some (cond_Zopp s (Zpos m * 2 ^ e))
      else if Zpos m mod 2 ^ (- e) =? 0
           then Some (cond_Zopp s (Zpos m / 2 ^ (- e)))
           else None
  | _ => None
  end.

(** [f == z] for a float [f] and an int [z]: Python compares the two
    exactly. *)
Definition float_eq_int (f : spec_float) (z : Z) : bool :=
  match float_integral f with
  | Some v => v =? z
  | None => false
  end.

(** [float(z)] for an int: round to nearest even; an int beyond the
    range of a float raises. *)
Definition float_of_int (z : Z) : res spec_float :=
  match binary_normalize prec emax z 0 false with
  | S754_infinity _ => Raise OverflowError
  | f => Ok f
  end.

(** [int(f)] for a float: towards zero. *)
Definition int_of_float (f : spec_float) : res Z :=
  match f with
  | S754_zero _ => Ok 0
  | S754_finite s m e =>
      Ok (cond_Zopp s (if 0 <=? e then Zpos m * 2 ^ e
                       else Zpos m / 2 ^ (- e)))
  | S754_infinity _ => Raise OverflowError
  | S754_nan => Raise ValueError
  end.

(** *** Numeric literals in strings *)

Definition is_space (c : ascii) : bool :=
  let n := Z.of_nat (nat_of_ascii c) in
  ((9 <=? n) && (n <=? 13)) || ((28 <=? n) && (n <=? 32))
  || (n =? 133) || (n =? 160).

Fixpoint lstrip (l : list ascii) : list ascii :=
  match l with
  | c :: l' => if is_space c then lstrip l' else l
  | [] => []
  end.

Definition strip (l : list ascii) : list ascii :=
  rev (lstrip (rev (lstrip l))).

Definition digit (c : ascii) : option Z :=
  let n := Z.of_nat (nat_of_ascii c) in
  if (48 <=? n) && (n <=? 57) then Some (n - 48) else None.

(** The rest of a [digitpart ::= digit (["_"] digit)*] after its first
    digit: the value so far, the number of digits read, what is left. *)
Fixpoint digits_tail (acc : Z) (n : Z) (l : list ascii)
  : Z * Z * list ascii :=
  match l with
  | c :: l' =>
      match digit c with
      | Some d => digits_tail (10 * acc + d) (n + 1) l'
      | None =>
          if Ascii.eqb c "_"
          then match l' with
               | c2 :: l'' =>
                   match digit c2 with
                   | Some d => digits_tail (10 * acc + d) (n + 1) l''
                   | None => (acc, n, l)
                   end
               | [] => (acc, n, l)
               end
          else (acc, n, l)
      end
  | [] => (acc, n, l)
  end.

(** A [digitpart] continuing the number [acc]. *)
Definition digitpart (acc : Z) (l : list ascii)
  : option (Z * Z * list ascii) :=
  match l with
  | c :: l' =>
      match digit c with
      | Some d => Some (digits_tail (10 * acc + d) 1 l')
      | None => None
      end
  | [] => None
  end.

Definition sign (l : list ascii) : bool * list ascii :=
  match l with
  | c :: l' =>
      if Ascii.eqb c "-" then (true, l')
      else if Ascii.eqb c "+" then (false, l')
      else (false, l)
  | [] => (false, l)
  end.

(** [int(s)] for a string, base 10. *)
Definition int_of_string (s : string) : res Z :=
  let (neg, l) := sign (strip (list_ascii_of_string s)) in
  match digitpart 0 l with
  | Some (v, _, []) => Ok (cond_Zopp neg v)
  | _ => Raise ValueError
  end.

(** The float nearest to [m * 10 ^ e10], ties to even.  For a negative
    [e10] the quotient is taken with more than sixty bits and one more
    bit that tells whether the division left a remainder. *)
Definition dec_to_float (s : bool) (m : Z) (e10 : Z) : spec_float :=
  if 0 <=? e10
  then binary_normalize prec emax (cond_Zopp s (m * 10 ^ e10)) 0 s
  else
    let d := 10 ^ (- e10) in
    let k := Z.max 0 (Z.log2 d - Z.log2 m + 64) in
    let n := m * 2 ^ k in
    let sticky := if n mod d =? 0 then 0 else 1 in
    binary_normalize prec emax (cond_Zopp s (2 * (n / d) + sticky))
                     (- k - 1) s.

Definition lower (c : ascii) : ascii :=
  let n := nat_of_ascii c in
  if (65 <=? n)%nat && (n <=? 90)%nat then ascii_of_nat (n + 32) else c.

(** [number ::= [digitpart] "." digitpart | digitpart ["."]]: the digits
    as one integer, how many of them follow the point, what is left. *)
Definition number (l : list ascii) : option (Z * Z * list ascii) :=
  match digitpart 0 l with
  | Some (ip, _, rest) =>
      match rest with
      | c :: rest' =>
          if Ascii.eqb c "."
          then match digitpart ip rest' with
               | Some r => Some r
               | None => Some (ip, 0, rest')
               end
          else Some (ip, 0, rest)
      | [] => Some (ip, 0, [])
      end
  | None =>
      match l with
      | c :: rest' => if Ascii.eqb c "." then digitpart 0 rest' else None
      | [] => None
      end
  end.

(** [exponent ::= ("e" | "E") [sign] digitpart], or nothing. *)
Definition exponent (l : list ascii) : option Z :=
  match l with
  | [] => Some 0
  | c :: l' =>
      if Ascii.eqb (lower c) "e"
      then let (neg, l'') := sign l' in
           match digitpart 0 l'' with
           | Some (v, _, []) => Some (cond_Zopp neg v)
           | _ => None
           end
      else None
  end.

(** [float(s)] for a string. *)
Definition float_of_string (s : string) : res spec_float :=
  let (neg, l) := sign (strip (list_ascii_of_string s)) in
  let word := string_of_list_ascii (map lower l) in
  if String.eqb word "inf" || String.eqb word "infinity"
  then Ok (S754_infinity neg)
  else if String.eqb word "nan" then Ok S754_nan
  else
    match number l with
    | Some (m, nfrac, rest) =>
        match exponent rest with
        | Some e => Ok (dec_to_float neg m (e - nfrac))
        | None => Raise ValueError
        end
    | None => Raise ValueError
    end.

(** [int(v)] and [float(v)]. *)
Definition int (v : pyval) : res Z :=
  match v with
  | PBool b => Ok (if b then 1 else 0)
  | PInt z => Ok z
  | PFloat f => int_of_float f
  | PStr s => int_of_string s
  | PNone | PList _ | PDict _ => Raise TypeError
  end.

Definition float (v : pyval) : res spec_float :=
  match v with
  | PBool b => float_of_int (if b then 1 else 0)
  | PInt z => float_of_int z
  | PFloat f => Ok f
  | PStr s => float_of_string s
  | PNone | PList _ | PDict _ => Raise TypeError
  end.

(** ** Sets *)

(** A [set] of hashable values, as the list of its members in the order
    they were added.  Lists and dicts are not hashable. *)
Definition pyset : Type := list pyval.

Definition hashable (v : pyval) : bool :=
  match v with
  | PList _ | PDict _ => false
  | _ => true
  end.

(** Two members are the same when they are equal in Python: [True], [1]
    and [1.0] are one member.  [key] picks the representative. *)
Definition key (v : pyval) : pyval :=
  match v with
  | PBool b => PInt (if b then 1 else 0)
  | PFloat f =>
      match float_integral f with
      | Some z => PInt z
      | None => PFloat f
      end
  | _ => v
  end.

Definition float_same (f g : spec_float) : bool :=
  match f, g with
  | S754_zero s, S754_zero t => Bool.eqb s t
  | S754_infinity s, S754_infinity t => Bool.eqb s t
  | S754_nan, S754_nan => true
  | S754_finite s m e, S754_finite t n d =>
      Bool.eqb s t && Pos.eqb m n && (e =? d)
  | _, _ => false
  end.

Definition key_eqb (a b : pyval) : bool :=
  match a, b with
  | PNone, PNone => true
  | PInt x, PInt y => x =? y
  | PFloat f, PFloat g => float_same f g
  | PStr s, PStr t => String.eqb s t
  | _, _ => false
  end.

(** [a in s] *)
Definition set_mem (a : pyval) (s : pyset) : bool :=
  existsb (fun b => key_eqb (key a) (key b)) s.

Definition add (a : pyval) (s : pyset) : pyset :=
  if set_mem a s then s else (s ++ [a])%list.

(** [s.add(a)] *)
Definition set_add (s : pyset) (a : pyval) : res pyset :=
  if hashable a then Ok (add a s) else Raise TypeError.

(** ** [%] formatting *)

(** [fmt % arg] for a string [arg] and a format whose only conversion is
    one [%s]. *)
Fixpoint subst_s (fmt arg : string) : option string :=
  match fmt with
  | String "%" (String "s" rest) => Some (arg ++ rest)
  | String c rest =>
      match subst_s rest arg with
      | Some r => Some (String c r)
      | None => None
      end
  | EmptyString => None
  end.

Definition mod_str (fmt arg : string) : res string :=
  match subst_s fmt arg with
  | Some r => Ok r
  | None => Raise TypeError
  end.

(** [fmt % arg] for a format without any conversion: a dict or a list is
    taken as a mapping nothing is looked up in; any other argument is
    left over. *)
Definition mod_unused (fmt : string) (arg : pyval) : res string :=
  match arg with
  | PDict _ | PList _ => Ok fmt
  | _ => Raise TypeError
  end.

End Py.

(* ================================================================== *)
(** * The module [cert_verifier.connectors] *)
(* ================================================================== *)

Module Connectors.
Import Py.

(** Modelled from the spec: [cert_core.Chain] is not under [src/].  The
    spec names the networks mainnet and testnet; the constructors below
    also have a branch for any other member, which [other] stands for
    with the member's name. *)
Inductive Chain : Type :=
| mainnet
| testnet
| other (name : string).

Definition Chain_eqb (a b : Chain) : bool :=
  match a, b with
  | mainnet, mainnet => true
  | testnet, testnet => true
  | other n, other m => String.eqb n m
  | _, _ => false
  end.

(** [str(chain)] *)
Definition Chain_str (c : Chain) : string :=
  match c with
  | mainnet => "Chain.mainnet"
  | testnet => "Chain.testnet"
  | other n => "Chain." ++ n
  end.

(** Modelled from the spec: [cert_verifier.TransactionData] is not under
    [src/]; it is the canonical result, built from the revoked addresses
    and the script. *)
Record TransactionData : Type := {
  revoked_addresses : pyset;
  script : pyval
}.

(** The three concrete classes. *)
Inductive provider : Type :=
| BlockchainInfo
| BlockrIO
| Blockcypher.

(** A connector object: its class and its only attribute. *)
Record connector : Type := {
  cls : provider;
  url : string
}.

(** One record of the [logging] module: the format and its arguments. *)
Record log_record : Type := {
  fmt : string;
  args : list pyval
}.

(** What a method can read and change: the object it is called on and
    the log. *)
Record world : Type := {
  self : connector;
  log : list log_record
}.

(** A method body: it returns or raises, and leaves a world. *)
Definition M (A : Type) : Type := world -> res A * world.

Definition ret {A : Type} (a : A) : M A := fun w => (Ok a, w).

Definition raise {A : Type} (e : exn) : M A := fun w => (Raise e, w).

Definition lift {A : Type} (c : res A) : M A := fun w => (c, w).

Definition mbind {A B : Type} (c : M A) (k : A -> M B) : M B :=
  fun w =>
    match c w with
    | (Ok a, w') => k a w'
    | (Raise e, w') => (Raise e, w')
    end.

Notation "x <~ c ;; k" := (mbind c (fun x => k))
  (at level 61, c at next level, right associativity).
Notation "c ;;; k" := (mbind c (fun _ => k))
  (at level 61, right associativity).

Definition get_self : M connector := fun w => (Ok (self w), w).

(** [logging.error(fmt, *args)] *)
Definition logging_error (f : string) (a : list pyval) : M unit :=
  fun w => (Ok tt, {| self := self w;
                      log := (log w ++ [{| fmt := f; args := a |}])%list |}).

(** [for o in l: body], the local variables threaded through. *)
Fixpoint for_each {S : Type} (body : pyval -> S -> res S)
         (l : list pyval) (s : S) : res S :=
  match l with
  | [] => Ok s
  | o :: l' => s' <- body o s ;; for_each body l' s'
  end.

(** The local variables [revoked] and [script] of a [parse_tx]. *)
Definition locals : Type := (pyset * pyval)%type.

Module BlockchainInfoConnector.

(** [chain] defaults to [Chain.mainnet]. *)
Definition __init__ (chain : option Chain) : res connector :=
  let chain := match chain with Some c => c | None => mainnet end in
  if negb (Chain_eqb chain mainnet)
  then Raise (Exception
         "only mainnet chain is supported with blockchain.info collector")
  else Ok {| cls := BlockchainInfo;
             url := "https://blockchain.info/rawtx/%s?cors=true" |}.

Definition loop_body (o : pyval) (st : locals) : res locals :=
  let (revoked, script) := st in
  v <- get o "value" (PInt 1) ;;
  n <- int v ;;
  if n =? 0 then
    s <- getitem o "script" ;;
    script' <- slice_from s 4 ;;
    Ok (revoked, script')
  else
    spent <- get o "spent" PNone ;;
    if truthy spent then
      addr <- get o "addr" PNone ;;
      revoked' <- set_add revoked addr ;;
      Ok (revoked', script)
    else Ok (revoked, script).

Definition parse_tx (json_response : pyval) : M TransactionData :=
  out <~ lift (getitem json_response "out") ;;
  l <~ lift (iter out) ;;
  st <~ lift (for_each loop_body l ([], PNone)) ;;
  let (revoked, script) := st : locals in
  if negb (truthy script) then
    logging_error "transaction response is missing op_return script: %s"
                  [json_response] ;;;
    msg <~ lift (mod_unused
                   "transaction response is missing op_return script"
                   json_response) ;;
    raise (InvalidTransactionError msg)
  else ret {| revoked_addresses := revoked; script := script |}.

End BlockchainInfoConnector.

Module BlockrIOConnector.

Definition __init__ (chain : Chain) : res connector :=
  if Chain_eqb chain testnet then
    Ok {| cls := BlockrIO;
          url := "https://tbtc.blockr.io/api/v1/tx/info/%s" |}
  else if Chain_eqb chain mainnet then
    Ok {| cls := BlockrIO;
          url := "https://btc.blockr.io/api/v1/tx/info/%s" |}
  else
    msg <- mod_str
      "unsupported chain (%s) requested with BlockrIO collector. Currently only testnet and mainnet are supported"
      (Chain_str chain) ;;
    Raise (Exception msg).

Definition loop_body (o : pyval) (st : locals) : res locals :=
  let (revoked, script) := st in
  v <- get o "amount" (PInt 1) ;;
  f <- float v ;;
  if float_eq_int f 0 then
    extras <- getitem o "extras" ;;
    s <- getitem extras "script" ;;
    script' <- slice_from s 4 ;;
    Ok (revoked, script')
  else
    is_spent <- get o "is_spent" PNone ;;
    c <- (if truthy is_spent then
            v' <- get o "is_spent" (PInt 1) ;;
            f' <- float v' ;;
            Ok (float_eq_int f' 49)
          else Ok false) ;;
    if (c : bool) then
      address <- get o "address" PNone ;;
      revoked' <- set_add revoked address ;;
      Ok (revoked', script)
    else Ok (revoked, script).

Definition parse_tx (json_response : pyval) : M TransactionData :=
  data <~ lift (getitem json_response "data") ;;
  vouts <~ lift (getitem data "vouts") ;;
  l <~ lift (iter vouts) ;;
  st <~ lift (for_each loop_body l ([], PNone)) ;;
  let (revoked, script) := st : locals in
  if negb (truthy script) then
    logging_error "transaction response is missing op_return script: %s"
                  [json_response] ;;;
    msg <~ lift (mod_unused
                   "transaction response is missing op_return script"
                   json_response) ;;
    raise (InvalidTransactionError msg)
  else ret {| revoked_addresses := revoked; script := script |}.

End BlockrIOConnector.

Module BlockcypherConnector.

Definition __init__ (chain : Chain) : res connector :=
  if Chain_eqb chain testnet then
    Ok {| cls := Blockcypher;
          url := "http://api.blockcypher.com/v1/btc/test3/txs/%s?limit=100" |}
  else if Chain_eqb chain mainnet then
    Ok {| cls := Blockcypher;
          url := "https://api.blockcypher.com/v1/btc/main/txs/%s?limit=100" |}
  else
    msg <- mod_str
      "unsupported chain (%s) requested with blockcypher collector. Currently only testnet and mainnet are supported"
      (Chain_str chain) ;;
    Raise (Exception msg).

Definition loop_body (o : pyval) (st : locals) : res locals :=
  let (revoked, script) := st in
  v <- get o "value" (PInt 1) ;;
  f <- float v ;;
  if float_eq_int f 0 then
    script' <- getitem o "data_hex" ;;
    Ok (revoked, script')
  else
    spent_by <- get o "spent_by" PNone ;;
    if truthy spent_by then
      addresses <- get o "addresses" PNone ;;
      a <- getitem0 addresses ;;
      revoked' <- set_add revoked a ;;
      Ok (revoked', script)
    else Ok (revoked, script).

Definition parse_tx (json_response : pyval) : M TransactionData :=
  outputs <~ lift (getitem json_response "outputs") ;;
  l <~ lift (iter outputs) ;;
  st <~ lift (for_each loop_body l ([], PNone)) ;;
  let (revoked, script) := st : locals in
  if negb (truthy script) then
    logging_error "transaction response is missing op_return script: %s"
                  [json_response] ;;;
    msg <~ lift (mod_unused
                   "transaction response is missing op_return script"
                   json_response) ;;
    raise (InvalidTransactionError msg)
  else ret {| revoked_addresses := revoked; script := script |}.

End BlockcypherConnector.

(** [self.parse_tx] is looked up in the class of the object. *)
Definition parse_tx_of (p : provider) : pyval -> M TransactionData :=
  match p with
  | BlockchainInfo => BlockchainInfoConnector.parse_tx
  | BlockrIO => BlockrIOConnector.parse_tx
  | Blockcypher => BlockcypherConnector.parse_tx
  end.

(** What [requests.get] hands back, as far as the module looks at it:
  the status code, and what [r.json()] does. *)
Record response : Type := {
  status_code : Z;
  json : res pyval
}.

(** The methods the three classes inherit. *)
Module TransactionLookupConnector.
Section Transport.

(** [requests.get]: the remote service. *)
Variable requests_get : string -> res response.

Definition fetch_tx (txid : string) : M pyval :=
  c <~ get_self ;;
  u <~ lift (mod_str (url c) txid) ;;
  r <~ lift (requests_get u) ;;
  if negb (status_code r =? 200) then
    logging_error "Error looking up by transaction_id=%s, status_code=%d"
                  [PStr txid; PInt (status_code r)] ;;;
    msg <~ lift (mod_str "error looking up transaction_id=%s" txid) ;;
    raise (InvalidTransactionError msg)
  else lift (json r).

Definition parse_tx (json_response : pyval) : M TransactionData :=
  c <~ get_self ;;
  parse_tx_of (cls c) json_response.

Definition lookup_tx (txid : string) : M TransactionData :=
  json_response <~ fetch_tx txid ;;
  parse_tx json_response.

End Transport.
End TransactionLookupConnector.

(** [chain] defaults to [Chain.mainnet]. *)
Definition createTransactionLookupConnector (chain : option Chain)
  : res connector :=
  BlockrIOConnector.__init__
    (match chain with Some c => c | None => mainnet end).

End Connectors.

(* ================================================================== *)
(** * The parts of a loop body *)
(* ================================================================== *)

(** The three [parse_tx] differ in the expressions they evaluate on an
    output, not in what they do with the values.  Here each expression
    is named, per provider, and the loop is written once from them;
    [loop_body_step] and [parse_tx_run] below show that this is what the
    three methods compute. *)
Module Parts.
Import Py Connectors.

Definition loop_body_of (p : provider) : pyval -> locals -> res locals :=
  match p with
  | BlockchainInfo => BlockchainInfoConnector.loop_body
  | BlockrIO => BlockrIOConnector.loop_body
  | Blockcypher => BlockcypherConnector.loop_body
  end.

(** The list the loop runs over. *)
Definition outputs (p : provider) (json_response : pyval)
  : res (list pyval) :=
  match p with
  | BlockchainInfo =>
      out <- getitem json_response "out" ;; iter out
  | BlockrIO =>
      data <- getitem json_response "data" ;;
      vouts <- getitem data "vouts" ;;
      iter vouts
  | Blockcypher =>
      outs <- getitem json_response "outputs" ;; iter outs
  end.

(** The test of the [if]: [int(o.get('value', 1)) == 0],
    [float(o.get('amount', 1)) == 0], [float(o.get('value', 1)) == 0]. *)
Definition zero_value (p : provider) (o : pyval) : res bool :=
  match p with
  | BlockchainInfo =>
      v <- get o "value" (PInt 1) ;; n <- int v ;; Ok (n =? 0)
  | BlockrIO =>
      v <- get o "amount" (PInt 1) ;; f <- float v ;; Ok (float_eq_int f 0)
  | Blockcypher =>
      v <- get o "value" (PInt 1) ;; f <- float v ;; Ok (float_eq_int f 0)
  end.

(** Where the script is: [o['script']], [o['extras']['script']],
    [o['data_hex']]. *)
Definition script_field (p : provider) (o : pyval) : res pyval :=
  match p with
  | BlockchainInfo => getitem o "script"
  | BlockrIO => extras <- getitem o "extras" ;; getitem extras "script"
  | Blockcypher => getitem o "data_hex"
  end.

(** What is assigned to [script]: the field sliced with [[4:]] by the
    first two providers, the field itself by the third. *)
Definition anchor_script (p : provider) (o : pyval) : res pyval :=
  s <- script_field p o ;;
  match p with
  | BlockchainInfo | BlockrIO => slice_from s 4
  | Blockcypher => Ok s
  end.

(** The test of the inner [if]: [o.get('spent')],
    [o.get('is_spent') and float(o.get('is_spent', 1)) == 49],
    [o.get('spent_by')]. *)
Definition spent (p : provider) (o : pyval) : res bool :=
  match p with
  | BlockchainInfo => v <- get o "spent" PNone ;; Ok (truthy v)
  | BlockrIO =>
      v <- get o "is_spent" PNone ;;
      if truthy v then
        v' <- get o "is_spent" (PInt 1) ;;
        f <- float v' ;;
        Ok (float_eq_int f 49)
      else Ok false
  | Blockcypher => v <- get o "spent_by" PNone ;; Ok (truthy v)
  end.

(** What is added to [revoked]: [o.get('addr')], [o.get('address')],
    [o.get('addresses')[0]]. *)
Definition address (p : provider) (o : pyval) : res pyval :=
  match p with
  | BlockchainInfo => get o "addr" PNone
  | BlockrIO => get o "address" PNone
  | Blockcypher => a <- get o "addresses" PNone ;; getitem0 a
  end.

(** One turn of the loop. *)
Definition step (p : provider) (o : pyval) (st : locals) : res locals :=
  let (revoked, script) := st in
  z <- zero_value p o ;;
  if (z : bool) then
    s <- anchor_script p o ;; Ok (revoked, s)
  else
    sp <- spent p o ;;
    if (sp : bool) then
      a <- address p o ;;
      revoked' <- set_add revoked a ;;
      Ok (revoked', script)
    else Ok (revoked, script).

(** Whether a turn of the loop on [o] goes through; the local variables
    have no say in it. *)
Definition accepts (p : provider) (o : pyval) : bool :=
  match zero_value p o with
  | Ok true =>
      match anchor_script p o with Ok _ => true | Raise _ => false end
  | Ok false =>
      match spent p o with
      | Ok true =>
          match address p o with
          | Ok a => hashable a
          | Raise _ => false
          end
      | Ok false => true
      | Raise _ => false
      end
  | Raise _ => false
  end.

(** [script] after the loop over [l], from [s]. *)
Fixpoint script_after (p : provider) (l : list pyval) (s : pyval) : pyval :=
  match l with
  | [] => s
  | o :: l' =>
      script_after p l'
        match zero_value p o, anchor_script p o with
        | Ok true, Ok s' => s'
        | _, _ => s
        end
  end.

(** [revoked] after the loop over [l], from [r]. *)
Fixpoint revoked_after (p : provider) (l : list pyval) (r : pyset) : pyset :=
  match l with
  | [] => r
  | o :: l' =>
      revoked_after p l'
        match zero_value p o, spent p o, address p o with
        | Ok false, Ok true, Ok a => add a r
        | _, _, _ => r
        end
  end.

(** The message every [parse_tx] raises with. *)
Definition missing_script : string :=
  "transaction response is missing op_return script".

(** What every [parse_tx] logs before it raises. *)
Definition missing_script_record (json_response : pyval) : log_record :=
  {| fmt := "transaction response is missing op_return script: %s";
     args := [json_response] |}.

Definition logged (w : world) (r : log_record) : world :=
  {| self := self w; log := (log w ++ [r])%list |}.

(** A [parse_tx] from its parts: the list, the loop, the check. *)
Definition run (p : provider) (json_response : pyval) (w : world)
  : res TransactionData * world :=
  match outputs p json_response with
  | Raise e => (Raise e, w)
  | Ok l =>
      match for_each (step p) l ([], PNone) with
      | Raise e => (Raise e, w)
      | Ok (r, s) =>
          if truthy s
          then (Ok {| revoked_addresses := r; script := s |}, w)
          else (Raise (InvalidTransactionError missing_script),
                logged w (missing_script_record json_response))
      end
  end.

(** An output with a value other than zero that the loop goes through. *)
Definition plain (p : provider) (o : pyval) : bool :=
  match zero_value p o with
  | Ok false => accepts p o
  | _ => false
  end.

(** What the provider keeps of a script string. *)
Definition kept (p : provider) (s : string) : string :=
  match p with
  | BlockchainInfo | BlockrIO => drop_chars 4 s
  | Blockcypher => s
  end.

(** The key the provider reads the value of an output under. *)
Definition value_field (p : provider) : string :=
  match p with
  | BlockchainInfo => "value"
  | BlockrIO => "amount"
  | Blockcypher => "value"
  end.

(** The key the provider reads the spent indicator under. *)
Definition spent_field (p : provider) : string :=
  match p with
  | BlockchainInfo => "spent"
  | BlockrIO => "is_spent"
  | Blockcypher => "spent_by"
  end.

(** A world to run the examples in. *)
Definition world_of (c : connector) : world := {| self := c; log := [] |}.

Definition blockchain_info : connector :=
  {| cls := BlockchainInfo;
     url := "https://blockchain.info/rawtx/%s?cors=true" |}.

Definition blockr_io : connector :=
  {| cls := BlockrIO; url := "https://btc.blockr.io/api/v1/tx/info/%s" |}.

Definition blockcypher : connector :=
  {| cls := Blockcypher;
     url := "https://api.blockcypher.com/v1/btc/main/txs/%s?limit=100" |}.

(** The response of the end-to-end example. *)
Definition example_response : pyval :=
  PDict [("out",
          PList [PDict [("value", PInt 0);
                        ("script", PStr "6a066f7000aabbcc")];
                 PDict [("value", PInt 1000);
                        ("spent", PBool true);
                        ("addr", PStr "1ABC")]])].

(** A response of provider A with two outputs of value zero. *)
Definition two_anchors : pyval :=
  PDict [("out",
          PList [PDict [("value", PInt 0); ("script", PStr "6a20aaaa")];
                 PDict [("value", PInt 0); ("script", PStr "6a20bbbb")];
                 PDict [("value", PInt 7)]])].

(** Every exception but the module's own. *)
Definition untyped (e : exn) : bool :=
  match e with
  | InvalidTransactionError _ => false
  | _ => true
  end.

(** A computation that raises none but untyped exceptions. *)
Definition raises_untyped {A : Type} (c : res A) : Prop :=
  forall e, c = Raise e -> untyped e = true.

End Parts.

(* ================================================================== *)
(** * Names for the edge cases *)
(* ================================================================== *)

Module Edge.
Import Py Connectors Parts.

(** What the [for] statement of a [parse_tx] is given to run over:
    [json_response['out']], [json_response['data']['vouts']],
    [json_response['outputs']]. *)
Definition container (p : provider) (json_response : pyval) : res pyval :=
  match p with
  | BlockchainInfo => getitem json_response "out"
  | BlockrIO =>
      data <- getitem json_response "data" ;; getitem data "vouts"
  | Blockcypher => getitem json_response "outputs"
  end.

(** The first key a [parse_tx] looks up in the response. *)
Definition list_key (p : provider) : string :=
  match p with
  | BlockchainInfo => "out"
  | BlockrIO => "data"
  | Blockcypher => "outputs"
  end.

(** The key an output with value zero is subscripted with. *)
Definition script_key (p : provider) : string :=
  match p with
  | BlockchainInfo => "script"
  | BlockrIO => "extras"
  | Blockcypher => "data_hex"
  end.

Definition is_dict (v : pyval) : bool :=
  match v with
  | PDict _ => true
  | _ => false
  end.

(** A connector that one of the three constructors returned. *)
Definition built (c : connector) : Prop :=
  (exists ch, BlockchainInfoConnector.__init__ ch = Ok c)
  \/ (exists ch, BlockrIOConnector.__init__ ch = Ok c)
  \/ (exists ch, BlockcypherConnector.__init__ ch = Ok c).

(** A transport that raises none but untyped exceptions, from the
    request and from decoding the body. *)
Definition transport_untyped (requests_get : string -> res response)
  : Prop :=
  forall u,
    raises_untyped (requests_get u)
    /\ forall r, requests_get u = Ok r -> raises_untyped (json r).

(** The record [fetch_tx] logs. *)
Definition status_record (txid : string) (code : Z) : log_record :=
  {| fmt := "Error looking up by transaction_id=%s, status_code=%d";
     args := [PStr txid; PInt code] |}.

(** A transport that answers every request the same way. *)
Definition answer (code : Z) (body : res pyval) : string -> res response :=
  fun _ => Ok {| status_code := code; json := body |}.

End Edge.

(* ================================================================== *)
(** * Properties *)
(* ================================================================== *)

Import Py Connectors Parts.

(** ** The loop *)

(** Case analysis on every call a body makes, outermost first. *)
Ltac by_calls :=
  repeat match goal with
         | |- context [match ?c with Ok _ => _ | Raise _ => _ end] =>
             destruct c
         | |- context [if ?b then _ else _] => destruct b
         end;
  try reflexivity.

Lemma loop_body_step (p : provider) (o : pyval) (st : locals) :
  loop_body_of p o st = step p o st.
Proof.
  destruct st as [revoked s].
  destruct p;
    unfold loop_body_of, step, zero_value, anchor_script, script_field,
           spent, address, BlockchainInfoConnector.loop_body,
           BlockrIOConnector.loop_body, BlockcypherConnector.loop_body, bind;
    by_calls.
Qed.

Lemma for_each_ext {S : Type} (f g : pyval -> S -> res S) :
  (forall o st, f o st = g o st) ->
  forall l st, for_each f l st = for_each g l st.
Proof.
  intros Hfg l; induction l as [|o l IH]; intros st; cbn [for_each].
  - reflexivity.
  - rewrite Hfg. destruct (g o st); cbn [bind]; auto.
Qed.

Lemma for_each_app {S : Type} (f : pyval -> S -> res S) (l1 l2 : list pyval) :
  forall st,
    for_each f (l1 ++ l2) st = st' <- for_each f l1 st ;; for_each f l2 st'.
Proof.
  induction l1 as [|o l1 IH]; intros st; cbn [for_each app bind].
  - reflexivity.
  - destruct (f o st); cbn [bind]; auto.
Qed.

(** A turn that goes through does what [revoked_after] and [script_after]
    say. *)
Lemma step_accepted (p : provider) (o : pyval) (r : pyset) (s : pyval) :
  accepts p o = true ->
  step p o (r, s) = Ok (revoked_after p [o] r, script_after p [o] s).
Proof.
  unfold accepts, step, set_add; cbn [revoked_after script_after].
  destruct (zero_value p o) as [[|]|e]; cbn [bind]; try discriminate.
  - destruct (anchor_script p o); cbn [bind]; [reflexivity|discriminate].
  - destruct (spent p o) as [[|]|e]; cbn [bind]; try discriminate.
    + destruct (address p o) as [a|e]; cbn [bind]; try discriminate.
      intros ->; reflexivity.
    + reflexivity.
Qed.

(** A turn that does not go through raises. *)
Lemma step_refused (p : provider) (o : pyval) (st : locals) :
  accepts p o = false -> exists e, step p o st = Raise e.
Proof.
  destruct st as [r s]; unfold accepts, step, set_add.
  destruct (zero_value p o) as [[|]|e]; cbn [bind]; [| |eauto].
  - destruct (anchor_script p o); cbn [bind]; [discriminate|eauto].
  - destruct (spent p o) as [[|]|e]; cbn [bind]; [|discriminate|eauto].
    destruct (address p o) as [a|e]; cbn [bind]; [|eauto].
    intros ->; cbn [bind]; eauto.
Qed.

Lemma revoked_after_app (p : provider) (l1 l2 : list pyval) :
  forall r, revoked_after p (l1 ++ l2) r
            = revoked_after p l2 (revoked_after p l1 r).
Proof. induction l1; intros r; cbn [revoked_after app]; auto. Qed.

Lemma script_after_app (p : provider) (l1 l2 : list pyval) :
  forall s, script_after p (l1 ++ l2) s
            = script_after p l2 (script_after p l1 s).
Proof. induction l1; intros s; cbn [script_after app]; auto. Qed.

(** The loop goes through exactly when every turn does, and then leaves
    [revoked_after] and [script_after]. *)
Lemma loop_accepted (p : provider) (l : list pyval) :
  forall r s,
    forallb (accepts p) l = true ->
    for_each (step p) l (r, s)
    = Ok (revoked_after p l r, script_after p l s).
Proof.
  induction l as [|o l IH]; intros r s H; cbn [for_each].
  - reflexivity.
  - cbn [forallb] in H. apply andb_true_iff in H as [Ho Hl].
    rewrite (step_accepted _ _ _ _ Ho); cbn [bind].
    rewrite (IH _ _ Hl). reflexivity.
Qed.

Lemma loop_returns (p : provider) (l : list pyval) :
  forall r s st,
    for_each (step p) l (r, s) = Ok st ->
    forallb (accepts p) l = true
    /\ st = (revoked_after p l r, script_after p l s).
Proof.
  induction l as [|o l IH]; intros r s st H; cbn [for_each] in H.
  - injection H as <-. split; reflexivity.
  - cbn [forallb]. destruct (accepts p o) eqn:Ho.
    + rewrite (step_accepted _ _ _ _ Ho) in H; cbn [bind] in H.
      apply IH in H as [Hl ->]. split; [exact Hl | reflexivity].
    + destruct (step_refused p o (r, s) Ho) as [e He].
      rewrite He in H; discriminate.
Qed.

(** ** A [parse_tx] from its parts *)

Lemma outputs_dict (p : provider) (json_response : pyval) (l : list pyval) :
  outputs p json_response = Ok l -> exists d, json_response = PDict d.
Proof.
  destruct json_response; destruct p; cbn; try discriminate; eauto.
Qed.

Lemma parse_tx_run (p : provider) (json_response : pyval) (w : world) :
  parse_tx_of p json_response w = run p json_response w.
Proof.
  unfold run.
  destruct (outputs p json_response) as [l|e] eqn:Hout.
  - destruct (outputs_dict _ _ _ Hout) as [d ->].
    rewrite <- (for_each_ext _ _ (loop_body_step p)).
    destruct p; cbn [parse_tx_of loop_body_of];
      unfold BlockchainInfoConnector.parse_tx, BlockrIOConnector.parse_tx,
             BlockcypherConnector.parse_tx, outputs in *;
      unfold mbind, lift, ret, raise, logging_error, mod_unused.
    all: repeat match goal with
           | H : context [match ?c with Ok _ => _ | Raise _ => _ end] |- _ =>
               destruct c; cbn [bind] in H; try discriminate H
           | H : bind ?c _ = _ |- _ =>
               destruct c; cbn [bind] in H; try discriminate H
           end.
    all: rewrite Hout.
    all: match goal with
         | |- context [for_each ?f ?l ?st] =>
             destruct (for_each f l st) as [[r s]|e]
         end; [destruct (truthy s)|]; reflexivity.
  - destruct p; cbn [parse_tx_of];
      unfold BlockchainInfoConnector.parse_tx, BlockrIOConnector.parse_tx,
             BlockcypherConnector.parse_tx, outputs in *;
      unfold mbind, lift.
    all: repeat match goal with
           | H : bind ?c _ = _ |- _ =>
               destruct c; cbn [bind] in H; try discriminate H
           end.
    all: try rewrite Hout; try (injection Hout as ->); reflexivity.
Qed.

(** ** Members of a set *)

Lemma float_same_eq (f g : spec_float) : float_same f g = true -> f = g.
Proof.
  destruct f, g; cbn [float_same]; try discriminate; try reflexivity.
  - intros H; apply eqb_prop in H; congruence.
  - intros H; apply eqb_prop in H; congruence.
  - intros H. apply andb_true_iff in H as [H He].
    apply andb_true_iff in H as [Hs Hm].
    apply eqb_prop in Hs. apply Pos.eqb_eq in Hm. apply Z.eqb_eq in He.
    congruence.
Qed.

Lemma float_same_refl (f : spec_float) : float_same f f = true.
Proof.
  destruct f; cbn [float_same]; try reflexivity; try apply eqb_reflx.
  rewrite eqb_reflx, Pos.eqb_refl, Z.eqb_refl; reflexivity.
Qed.

Lemma key_eqb_eq (a b : pyval) : key_eqb a b = true -> a = b.
Proof.
  destruct a, b; cbn [key_eqb]; try discriminate; try reflexivity.
  - intros H; apply Z.eqb_eq in H; congruence.
  - intros H; apply float_same_eq in H; congruence.
  - intros H; apply String.eqb_eq in H; congruence.
Qed.

Lemma key_eqb_refl (a : pyval) :
  hashable a = true -> key_eqb (key a) (key a) = true.
Proof.
  destruct a; cbn [hashable key key_eqb]; try discriminate; intros _;
    try reflexivity.
  - apply Z.eqb_refl.
  - apply Z.eqb_refl.
  - destruct (float_integral f); cbn [key_eqb];
      [apply Z.eqb_refl | apply float_same_refl].
  - apply String.eqb_refl.
Qed.

Lemma key_eqb_hashable (a b : pyval) :
  key_eqb (key a) (key b) = true -> hashable b = true.
Proof.
  destruct b; cbn [hashable]; try reflexivity;
    cbn [key]; destruct (key a); discriminate.
Qed.

Lemma set_mem_same_key (x y : pyval) (s : pyset) :
  key x = key y -> set_mem x s = set_mem y s.
Proof. unfold set_mem; intros ->; reflexivity. Qed.

Lemma set_mem_add (x a : pyval) (s : pyset) :
  set_mem x (add a s) = true
  <-> set_mem x s = true \/ key_eqb (key x) (key a) = true.
Proof.
  unfold add. destruct (set_mem a s) eqn:Ha.
  - split; [auto|]. intros [H|H]; [exact H|].
    rewrite (set_mem_same_key x a s (key_eqb_eq _ _ H)). exact Ha.
  - unfold set_mem. rewrite existsb_app; cbn [existsb].
    rewrite orb_false_r, orb_true_iff. reflexivity.
Qed.

Lemma set_mem_In (x : pyval) (s : pyset) :
  set_mem x s = true <-> exists b, In b s /\ key_eqb (key x) (key b) = true.
Proof. unfold set_mem. apply existsb_exists. Qed.

(** The members of [revoked] after the loop: those before it, and the
    addresses of the outputs with a value other than zero that pass the
    spent check. *)
Lemma revoked_after_mem (p : provider) (l : list pyval) :
  forall r x,
    set_mem x (revoked_after p l r) = true
    <-> set_mem x r = true
        \/ exists o a,
            In o l /\ zero_value p o = Ok false /\ spent p o = Ok true
            /\ address p o = Ok a /\ key_eqb (key x) (key a) = true.
Proof.
  induction l as [|o l IH]; intros r x; cbn [revoked_after].
  - split; [auto|]. intros [H|(o & a & [] & _)]; exact H.
  - rewrite IH. split.
    + intros [H|(o' & a & Hin & H)].
      * destruct (zero_value p o) as [[|]|] eqn:Hz; auto.
        destruct (spent p o) as [[|]|] eqn:Hs; auto.
        destruct (address p o) as [a|] eqn:Ha; auto.
        apply set_mem_add in H as [H|H]; [auto|].
        right; exists o, a; cbn [In]; auto 6.
      * right; exists o', a; cbn [In]; auto.
    + intros [H|(o' & a & [<-|Hin] & Hz & Hs & Ha & Hk)].
      * left. destruct (zero_value p o) as [[|]|]; auto.
        destruct (spent p o) as [[|]|]; auto.
        destruct (address p o); auto. apply set_mem_add; auto.
      * left. rewrite Hz, Hs, Ha. apply set_mem_add; auto.
      * right; exists o', a; auto.
Qed.

(** ** Untyped exceptions *)

Lemma untyped_ok {A : Type} (a : A) : raises_untyped (Ok a).
Proof. intros e H; discriminate H. Qed.

Lemma untyped_raise {A : Type} (e : exn) :
  untyped e = true -> raises_untyped (@Raise A e).
Proof. intros He e' H; injection H as <-; exact He. Qed.

Lemma untyped_bind {A B : Type} (c : res A) (k : A -> res B) :
  raises_untyped c -> (forall a, raises_untyped (k a)) ->
  raises_untyped (bind c k).
Proof.
  intros Hc Hk e. destruct c as [a|e']; cbn [bind].
  - apply Hk.
  - intros H; injection H as <-. apply Hc; reflexivity.
Qed.

Lemma untyped_if {A : Type} (b : bool) (c1 c2 : res A) :
  raises_untyped c1 -> raises_untyped c2 ->
  raises_untyped (if b then c1 else c2).
Proof. destruct b; auto. Qed.

(** The cases of a builtin, each of which returns or raises an untyped
    exception. *)
Ltac builtin_cases :=
  intros e;
  repeat match goal with
         | |- context [match ?x with _ => _ end] => destruct x
         end;
  intros H; try discriminate H; injection H as <-; reflexivity.

Lemma untyped_get (o : pyval) (k : string) (v : pyval) :
  raises_untyped (get o k v).
Proof. unfold get; builtin_cases. Qed.

Lemma untyped_getitem (o : pyval) (k : string) : raises_untyped (getitem o k).
Proof. unfold getitem; builtin_cases. Qed.

Lemma untyped_getitem0 (o : pyval) : raises_untyped (getitem0 o).
Proof. unfold getitem0; builtin_cases. Qed.

Lemma untyped_slice_from (o : pyval) (n : nat) :
  raises_untyped (slice_from o n).
Proof. unfold slice_from; builtin_cases. Qed.

Lemma untyped_set_add (s : pyset) (a : pyval) : raises_untyped (set_add s a).
Proof. unfold set_add; builtin_cases. Qed.

Lemma untyped_int (v : pyval) : raises_untyped (int v).
Proof.
  unfold int, int_of_float, int_of_string; builtin_cases.
Qed.

Lemma untyped_float (v : pyval) : raises_untyped (float v).
Proof.
  unfold float, float_of_int, float_of_string; builtin_cases.
Qed.

Create HintDb untyped.
#[local] Hint Resolve untyped_ok untyped_bind untyped_if untyped_get
  untyped_getitem untyped_getitem0 untyped_slice_from untyped_set_add
  untyped_int untyped_float : untyped.

Lemma untyped_step (p : provider) (o : pyval) (st : locals) :
  raises_untyped (step p o st).
Proof.
  destruct st as [r s]; destruct p;
    unfold step, zero_value, anchor_script, script_field, spent, address;
    repeat (first [ apply untyped_bind; [|intros ?]
                  | apply untyped_if
                  | match goal with
                    | |- raises_untyped (if ?b then _ else _) => destruct b
                    end ]);
    auto with untyped; apply untyped_raise; reflexivity.
Qed.

Lemma untyped_loop (p : provider) (l : list pyval) :
  forall st, raises_untyped (for_each (step p) l st).
Proof.
  induction l as [|o l IH]; intros st; cbn [for_each].
  - apply untyped_ok.
  - apply untyped_bind; [apply untyped_step | exact IH].
Qed.

(** ** Ints and floats *)

Lemma digits2_pos_size (m : positive) : digits2_pos m = Pos.size m.
Proof. induction m; cbn; congruence. Qed.

Lemma digits2_pos_shift (m k : positive) :
  digits2_pos (Pos.iter xO m k) = (digits2_pos m + k)%positive.
Proof.
  induction k as [|k IH] using Pos.peano_ind.
  - cbn. lia.
  - rewrite Pos.iter_succ. cbn [digits2_pos]. rewrite IH. lia.
Qed.

Lemma Zpos_shift (m k : positive) :
  Zpos (Pos.iter xO m k) = Zpos m * 2 ^ Zpos k.
Proof.
  induction k as [|k IH] using Pos.peano_ind.
  - cbn. lia.
  - rewrite Pos.iter_succ, Pos2Z.inj_succ, Z.pow_succ_r by lia.
    rewrite Pos2Z.inj_xO, IH. lia.
Qed.

Lemma size_below_2_53 (m : positive) :
  Zpos m < 2 ^ 53 -> Zpos (Pos.size m) <= 53.
Proof.
  intros H. pose proof (Pos.size_le m) as Hle.
  assert (2 ^ Zpos (Pos.size m) <= 2 * Zpos m).
  { rewrite <- Pos2Z.inj_pow. change (2 * Zpos m) with (Zpos m~0). lia. }
  destruct (Z_le_gt_dec (Zpos (Pos.size m)) 53) as [|Hgt]; [assumption|].
  assert (2 ^ 54 <= 2 ^ Zpos (Pos.size m)) by (apply Z.pow_le_mono_r; lia).
  change (2 ^ 54) with (2 * 2 ^ 53) in *. lia.
Qed.

(** A mantissa of 53 bits is not rounded. *)
Lemma round_aux_53_bits (sx : bool) (mz : positive) (ez : Z) :
  Zpos (digits2_pos mz) = 53 -> -1074 <= ez <= 971 ->
  binary_round_aux prec emax sx (Zpos mz) ez loc_Exact
  = S754_finite sx mz ez.
Proof.
  intros Hd He. unfold binary_round_aux, shr_fexp, prec, emax.
  cbn [Zdigits2]. rewrite Hd.
  assert (Hf : fexp 53 1024 (53 + ez) - ez = 0).
  { unfold fexp, emin. lia. }
  rewrite Hf.
  cbn [shr shr_record_of_loc shr_m loc_of_shr_record round_nearest_even
       Zdigits2].
  rewrite Hd, Hf. cbn [shr shr_record_of_loc shr_m].
  replace (ez <=? 1024 - 53) with true by (symmetry; apply Z.leb_le; lia).
  reflexivity.
Qed.

Lemma round_below_2_53 (sx : bool) (m : positive) :
  Zpos m < 2 ^ 53 ->
  exists mz ez,
    binary_round prec emax sx m 0 = S754_finite sx mz ez
    /\ ez <= 0 /\ Zpos mz = Zpos m * 2 ^ (- ez).
Proof.
  intros H. apply size_below_2_53 in H. rewrite <- digits2_pos_size in H.
  unfold binary_round.
  assert (Hpos : 0 < Zpos (digits2_pos m)) by lia.
  assert (Hf : fexp prec emax (Zpos (digits2_pos m) + 0)
               = Zpos (digits2_pos m) - 53).
  { unfold fexp, emin, prec, emax. lia. }
  rewrite Hf. unfold shl_align.
  destruct (Zpos (digits2_pos m) - 53 - 0) as [|k|k] eqn:Hk.
  - exists m, 0. rewrite round_aux_53_bits by lia.
    split; [reflexivity|]. split; [lia|]. cbn. lia.
  - lia.
  - exists (Pos.iter xO m k), (Zpos (digits2_pos m) - 53).
    rewrite round_aux_53_bits.
    + split; [reflexivity|]. split; [lia|].
      rewrite Zpos_shift. f_equal. f_equal. lia.
    + rewrite digits2_pos_shift. lia.
    + lia.
Qed.

(** [float(z)] is [z] itself for an int below [2 ^ 53] in size. *)
Lemma float_of_int_exact (z : Z) :
  Z.abs z < 2 ^ 53 ->
  exists f, float_of_int z = Ok f /\ float_integral f = Some z.
Proof.
  intros Hz. unfold float_of_int.
  destruct z as [|m|m]; cbn [binary_normalize].
  - eexists; split; reflexivity.
  - destruct (round_below_2_53 false m Hz) as (mz & ez & -> & He & Hm).
    eexists; split; [reflexivity|]. cbn [float_integral cond_Zopp].
    rewrite Hm. destruct (0 <=? ez) eqn:E.
    + apply Z.leb_le in E. replace ez with 0 by lia. cbn [Z.opp Z.pow].
      f_equal. lia.
    + rewrite Z.mod_mul, Z.eqb_refl, Z.div_mul by lia. reflexivity.
  - destruct (round_below_2_53 true m Hz) as (mz & ez & -> & He & Hm).
    eexists; split; [reflexivity|]. cbn [float_integral cond_Zopp].
    rewrite Hm. destruct (0 <=? ez) eqn:E.
    + apply Z.leb_le in E. replace ez with 0 by lia. cbn [Z.opp Z.pow].
      f_equal. lia.
    + rewrite Z.mod_mul, Z.eqb_refl, Z.div_mul by lia. reflexivity.
Qed.

(** A float equals the int 0 exactly when it is a zero. *)
Lemma float_eq_int_0 (f : spec_float) :
  float_eq_int f 0 = float_is_zero f.
Proof.
  unfold float_eq_int. destruct f as [s|s| |s m e]; try reflexivity.
  cbn [float_integral float_is_zero].
  destruct (0 <=? e) eqn:E.
  - apply Z.leb_le in E.
    assert (0 < Zpos m * 2 ^ e) by (apply Z.mul_pos_pos; lia).
    apply Z.eqb_neq. destruct s; cbn [cond_Zopp]; lia.
  - destruct (Zpos m mod 2 ^ (- e) =? 0) eqn:Hmod; [|reflexivity].
    apply Z.leb_gt in E. apply Z.eqb_eq in Hmod.
    assert (Hp : 0 < 2 ^ (- e)) by (apply Z.pow_pos_nonneg; lia).
    assert (0 < Zpos m / 2 ^ (- e)).
    { apply Z.div_str_pos. split; [exact Hp|].
      apply Z.mod_divide in Hmod; [|lia].
      apply Z.divide_pos_le in Hmod; lia. }
    apply Z.eqb_neq. destruct s; cbn [cond_Zopp]; lia.
Qed.

(** On an int below [2 ^ 53] in size every provider's zero test is the
    comparison with 0; on a float the zero test of providers B and C is
    the comparison with zero. *)
Lemma zero_value_int (p : provider) (d : list (string * pyval)) (z : Z) :
  lookup (value_field p) d = Some (PInt z) ->
  Z.abs z < 2 ^ 53 ->
  zero_value p (PDict d) = Ok (z =? 0).
Proof.
  intros Hd Hz. destruct (float_of_int_exact z Hz) as (f & Hf & Hi).
  destruct p; cbn [zero_value value_field get] in *; rewrite Hd;
    cbn [bind int float]; try reflexivity;
    rewrite Hf; cbn [bind]; unfold float_eq_int; rewrite Hi; reflexivity.
Qed.

Lemma zero_value_float (p : provider) (d : list (string * pyval))
      (f : spec_float) :
  p <> BlockchainInfo ->
  lookup (value_field p) d = Some (PFloat f) ->
  zero_value p (PDict d) = Ok (float_is_zero f).
Proof.
  intros Hp Hd.
  destruct p; [contradiction| |]; cbn [zero_value value_field get] in *;
    rewrite Hd; cbn [bind float]; rewrite float_eq_int_0; reflexivity.
Qed.

(** On an int below [2 ^ 53] in size the spent check of provider B is
    the comparison with 49. *)
Lemma spent_blockr_int (d : list (string * pyval)) (z : Z) :
  lookup "is_spent" d = Some (PInt z) ->
  Z.abs z < 2 ^ 53 ->
  spent BlockrIO (PDict d) = Ok (z =? 49).
Proof.
  intros Hd Hz. destruct (float_of_int_exact z Hz) as (f & Hf & Hi).
  cbn [spent get]. rewrite Hd; cbn [bind truthy float].
  destruct (z =? 0) eqn:E; cbn [negb].
  - apply Z.eqb_eq in E; subst z; reflexivity.
  - rewrite Hf; cbn [bind]. unfold float_eq_int; rewrite Hi; reflexivity.
Qed.

(** ** The script of the result *)

Lemma plain_accepts (p : provider) (o : pyval) :
  plain p o = true -> accepts p o = true.
Proof. unfold plain; destruct (zero_value p o) as [[|]|]; easy. Qed.

Lemma plain_all_accepts (p : provider) (l : list pyval) :
  forallb (plain p) l = true -> forallb (accepts p) l = true.
Proof.
  induction l as [|o l IH]; cbn [forallb]; [reflexivity|].
  intros H; apply andb_true_iff in H as [Ho Hl].
  rewrite (plain_accepts _ _ Ho), (IH Hl); reflexivity.
Qed.

(** Outputs with a value other than zero leave [script] alone. *)
Lemma script_after_plain (p : provider) (l : list pyval) :
  forall s, forallb (plain p) l = true -> script_after p l s = s.
Proof.
  induction l as [|o l IH]; intros s H; cbn [script_after forallb] in *.
  - reflexivity.
  - apply andb_true_iff in H as [Ho Hl]. unfold plain in Ho.
    destruct (zero_value p o) as [[|]|]; try discriminate; auto.
Qed.

Lemma script_after_no_zero (p : provider) (l : list pyval) :
  forall s,
    (forall o, In o l -> zero_value p o <> Ok true) ->
    script_after p l s = s.
Proof.
  induction l as [|o l IH]; intros s H; cbn [script_after].
  - reflexivity.
  - destruct (zero_value p o) as [[|]|] eqn:Hz.
    + exfalso; apply (H o); [left; reflexivity | exact Hz].
    + apply IH; intros o' Ho'; apply H; right; exact Ho'.
    + apply IH; intros o' Ho'; apply H; right; exact Ho'.
Qed.

Lemma plain_not_zero (p : provider) (l : list pyval) :
  forallb (plain p) l = true ->
  forall o, In o l -> zero_value p o <> Ok true.
Proof.
  intros H o Hin. rewrite forallb_forall in H. specialize (H o Hin).
  unfold plain in H. destruct (zero_value p o) as [[|]|]; discriminate.
Qed.

Lemma accepted_plain (p : provider) (l : list pyval) :
  forallb (accepts p) l = true ->
  (forall o, In o l -> zero_value p o <> Ok true) ->
  forallb (plain p) l = true.
Proof.
  intros Hacc Hnz. apply forallb_forall. intros o Hin.
  rewrite forallb_forall in Hacc. specialize (Hacc o Hin).
  specialize (Hnz o Hin). unfold plain.
  destruct (zero_value p o) as [[|]|] eqn:Hz.
  - contradiction.
  - exact Hacc.
  - unfold accepts in Hacc; rewrite Hz in Hacc; discriminate.
Qed.

(** After the last output with value zero, [script] is its script. *)
Lemma script_after_last (p : provider) (pre post : list pyval)
      (o s0 s : pyval) :
  zero_value p o = Ok true ->
  anchor_script p o = Ok s ->
  (forall o', In o' post -> zero_value p o' <> Ok true) ->
  script_after p (pre ++ o :: post)%list s0 = s.
Proof.
  intros Hz Ha Hpost.
  rewrite script_after_app. cbn [script_after]. rewrite Hz, Ha.
  apply script_after_no_zero, Hpost.
Qed.

Lemma revoked_after_zero (p : provider) (pre post : list pyval)
      (o : pyval) (r : pyset) :
  zero_value p o = Ok true ->
  revoked_after p (pre ++ o :: post)%list r
  = revoked_after p (pre ++ post)%list r.
Proof.
  intros Hz. rewrite !revoked_after_app. cbn [revoked_after].
  rewrite Hz. reflexivity.
Qed.

(** The script and the addresses of the result, from the place of the
    last output with value zero. *)
Lemma parse_tx_last_anchor
      (p : provider) (json_response : pyval) (pre post : list pyval)
      (o s : pyval) (w : world) :
  outputs p json_response = Ok (pre ++ o :: post)%list ->
  forallb (accepts p) pre = true ->
  zero_value p o = Ok true ->
  anchor_script p o = Ok s ->
  truthy s = true ->
  forallb (plain p) post = true ->
  parse_tx_of p json_response w
  = (Ok {| revoked_addresses := revoked_after p (pre ++ post)%list [];
           script := s |}, w).
Proof.
  intros Hout Hpre Hz Ha Hs Hpost.
  rewrite parse_tx_run; unfold run; rewrite Hout.
  rewrite loop_accepted.
  - rewrite (script_after_last _ _ _ _ _ _ Hz Ha (plain_not_zero _ _ Hpost)).
    rewrite Hs, (revoked_after_zero _ _ _ _ _ Hz). reflexivity.
  - rewrite forallb_app; cbn [forallb].
    rewrite Hpre, (plain_all_accepts _ _ Hpost).
    unfold accepts; rewrite Hz, Ha; reflexivity.
Qed.

(** What a call that returns went through. *)
Lemma parse_tx_returns
      (p : provider) (json_response : pyval) (w w' : world)
      (res : TransactionData) :
  parse_tx_of p json_response w = (Ok res, w') ->
  exists outs,
    outputs p json_response = Ok outs
    /\ forallb (accepts p) outs = true
    /\ revoked_addresses res = revoked_after p outs []
    /\ script res = script_after p outs PNone.
Proof.
  rewrite parse_tx_run; unfold run.
  destruct (outputs p json_response) as [outs|]; [|discriminate].
  destruct (for_each _ _ _) as [[r s]|] eqn:Hloop; [|discriminate].
  destruct (truthy s); [|discriminate].
  intros H; injection H as <- _.
  apply loop_returns in Hloop as [Hacc Hst]; injection Hst as -> ->.
  exists outs; auto.
Qed.

(** C7.  When the outputs are [pre], then an output [o] with value zero,
    then outputs [post] none of which has value zero, the script that
    [parse_tx] returns is the one of [o], whatever outputs with value
    zero [pre] holds: the last zero-value output decides the script.
    And [parse_tx] does return it when the script of [o] counts as true
    and the loop goes through the other outputs. *)
Theorem last_zero_value_output_wins
        (p : provider) (json_response : pyval) (pre post : list pyval)
        (o : pyval) (w : world) :
  outputs p json_response = Ok (pre ++ o :: post)%list ->
  zero_value p o = Ok true ->
  (forall o', In o' post -> zero_value p o' <> Ok true) ->
  (forall res w',
      parse_tx_of p json_response w = (Ok res, w') ->
      anchor_script p o = Ok (script res))
  /\ (forall s,
         anchor_script p o = Ok s ->
         truthy s = true ->
         forallb (accepts p) (pre ++ post)%list = true ->
         parse_tx_of p json_response w
         = (Ok {| revoked_addresses := revoked_after p (pre ++ post)%list [];
                  script := s |}, w)).
Proof.
  intros Hout Hz Hpost. split.
  - intros res w' H.
    destruct (parse_tx_returns _ _ _ _ _ H) as (outs & Ho & Hacc & _ & Hs).
    rewrite Hout in Ho; injection Ho as <-.
    rewrite forallb_app in Hacc; cbn [forallb] in Hacc.
    apply andb_true_iff in Hacc as [_ Hacc].
    apply andb_true_iff in Hacc as [Hacc _].
    unfold accepts in Hacc; rewrite Hz in Hacc.
    destruct (anchor_script p o) as [s|] eqn:Ha; [|discriminate].
    rewrite Hs, (script_after_last _ _ _ _ _ _ Hz Ha Hpost). reflexivity.
  - intros s Ha Hs Hacc.
    rewrite forallb_app in Hacc. apply andb_true_iff in Hacc as [Hpre Hp].
    apply (parse_tx_last_anchor p json_response pre post o); auto.
    apply accepted_plain; assumption.
Qed.

(** Two outputs with value zero under provider A: the script is the one
    of the second. *)
Lemma last_zero_value_output_wins_witness :
  parse_tx_of BlockchainInfo two_anchors (world_of blockchain_info)
  = (Ok {| revoked_addresses := []; script := PStr "bbbb" |},
     world_of blockchain_info).
Proof.
  refine (proj2 (last_zero_value_output_wins BlockchainInfo two_anchors
                   [PDict [("value", PInt 0); ("script", PStr "6a20aaaa")]]
                   [PDict [("value", PInt 7)]]
                   (PDict [("value", PInt 0); ("script", PStr "6a20bbbb")])
                   _ eq_refl eq_refl _)
                (PStr "bbbb") eq_refl eq_refl eq_refl).
  intros o' [<-|[]]; discriminate.
Defined.

(** C1, as the code has it.  When one output has value zero and its
    script field is the string [str], and every other output has a value
    other than zero, providers A and B return [str] without its first
    four characters and provider C returns [str] itself, provided that
    this is not the empty string. *)
Theorem anchor_script_kept
        (p : provider) (json_response : pyval) (pre post : list pyval)
        (o : pyval) (str : string) (w : world) :
  outputs p json_response = Ok (pre ++ o :: post)%list ->
  forallb (plain p) pre = true ->
  forallb (plain p) post = true ->
  zero_value p o = Ok true ->
  script_field p o = Ok (PStr str) ->
  kept p str <> "" ->
  parse_tx_of p json_response w
  = (Ok {| revoked_addresses := revoked_after p (pre ++ post)%list [];
           script := PStr (kept p str) |}, w).
Proof.
  intros Hout Hpre Hpost Hz Hf Hk.
  apply (parse_tx_last_anchor p json_response pre post o);
    auto using plain_all_accepts.
  - unfold anchor_script; rewrite Hf; destruct p; reflexivity.
  - cbn [truthy]. destruct (kept p str); [contradiction|reflexivity].
Qed.

(** The end-to-end example under provider A: the address is revoked and
    the script is the field without its first four characters. *)
Lemma anchor_script_kept_witness :
  parse_tx_of BlockchainInfo example_response (world_of blockchain_info)
  = (Ok {| revoked_addresses := [PStr "1ABC"];
           script := PStr "6f7000aabbcc" |},
     world_of blockchain_info).
Proof.
  apply (anchor_script_kept BlockchainInfo example_response []
           [PDict [("value", PInt 1000); ("spent", PBool true);
                   ("addr", PStr "1ABC")]]
           (PDict [("value", PInt 0); ("script", PStr "6a066f7000aabbcc")])
           "6a066f7000aabbcc");
    try reflexivity.
  discriminate.
Defined.

(** C1, as the spec has it, fails: on the end-to-end example provider A
    does not return the script ["00aabbcc"]; from the script
    ["00000000abcd"] provider A keeps ["0000abcd"] and provider C keeps
    all of it, neither keeps ["abcd"]. *)
Lemma eight_characters_not_stripped :
  fst (parse_tx_of BlockchainInfo example_response
                   (world_of blockchain_info))
  <> Ok {| revoked_addresses := [PStr "1ABC"]; script := PStr "00aabbcc" |}
  /\ fst (parse_tx_of BlockchainInfo
            (PDict [("out", PList [PDict [("value", PInt 0);
                                          ("script", PStr "00000000abcd")]])])
            (world_of blockchain_info))
     = Ok {| revoked_addresses := []; script := PStr "0000abcd" |}
  /\ fst (parse_tx_of Blockcypher
            (PDict [("outputs",
                     PList [PDict [("value", PInt 0);
                                   ("data_hex", PStr "00000000abcd")]])])
            (world_of blockcypher))
     = Ok {| revoked_addresses := []; script := PStr "00000000abcd" |}.
Proof.
  split; [|split]; [|reflexivity|reflexivity].
  intros H; vm_compute in H; discriminate H.
Qed.

(** ** No output with value zero *)

(** What [parse_tx] returns has a script that counts as true. *)
Lemma parse_tx_script_truthy
      (p : provider) (json_response : pyval) (w w' : world)
      (res : TransactionData) :
  parse_tx_of p json_response w = (Ok res, w') ->
  truthy (script res) = true.
Proof.
  rewrite parse_tx_run; unfold run.
  destruct (outputs p json_response); [|discriminate].
  destruct (for_each _ _ _) as [[r s]|]; [|discriminate].
  destruct (truthy s) eqn:Hs; [|discriminate].
  intros H; injection H as <- _. exact Hs.
Qed.

(** C4.  When no output has value zero, [parse_tx] never returns: if
    the loop goes through every output it logs the raw response and
    raises [InvalidTransactionError], and if not it raises the untyped
    exception of the output that stopped the loop.  Whatever the
    outputs, a result of [parse_tx] never has an empty or unset script.
    On an int the zero test is the comparison with 0. *)
Theorem no_zero_value_output_raises
        (p : provider) (json_response : pyval) (outs : list pyval)
        (w : world) :
  outputs p json_response = Ok outs ->
  (forall o, In o outs -> zero_value p o <> Ok true) ->
  (forall res, fst (parse_tx_of p json_response w) <> Ok res)
  /\ (forallb (accepts p) outs = true ->
      parse_tx_of p json_response w
      = (Raise (InvalidTransactionError missing_script),
         logged w (missing_script_record json_response)))
  /\ (forallb (accepts p) outs = false ->
      exists e, parse_tx_of p json_response w = (Raise e, w)
                /\ untyped e = true)
  /\ (forall raw w0 res w',
         parse_tx_of p raw w0 = (Ok res, w') ->
         truthy (script res) = true
         /\ script res <> PNone /\ script res <> PStr "")
  /\ (forall d z,
         lookup (value_field p) d = Some (PInt z) -> Z.abs z < 2 ^ 53 ->
         zero_value p (PDict d) = Ok (z =? 0)).
Proof.
  intros Hout Hnz. split; [|split; [|split; [|split]]].
  - intros res.
    rewrite parse_tx_run; unfold run; rewrite Hout.
    destruct (for_each (step p) outs ([], PNone)) as [[r s]|e] eqn:Hloop;
      [|discriminate].
    apply loop_returns in Hloop as [_ Hst]. injection Hst as _ ->.
    rewrite (script_after_no_zero _ _ _ Hnz). discriminate.
  - intros Hacc.
    rewrite parse_tx_run; unfold run; rewrite Hout.
    rewrite (loop_accepted _ _ _ _ Hacc).
    rewrite (script_after_no_zero _ _ _ Hnz). reflexivity.
  - intros Hacc.
    rewrite parse_tx_run; unfold run; rewrite Hout.
    destruct (for_each (step p) outs ([], PNone)) as [[r s]|e] eqn:Hloop.
    + apply loop_returns in Hloop as [Hall _].
      rewrite Hall in Hacc; discriminate.
    + exists e. split; [reflexivity|].
      apply (untyped_loop p outs ([], PNone)), Hloop.
  - intros raw w0 res w' H.
    pose proof (parse_tx_script_truthy _ _ _ _ _ H) as Ht.
    split; [exact Ht|]. split; intros E; rewrite E in Ht; discriminate.
  - apply zero_value_int.
Qed.

(** The end-to-end example without its zero-value output. *)
Lemma no_zero_value_output_raises_witness :
  let raw := PDict [("out",
                     PList [PDict [("value", PInt 1000);
                                   ("spent", PBool true);
                                   ("addr", PStr "1ABC")]])] in
  parse_tx_of BlockchainInfo raw (world_of blockchain_info)
  = (Raise (InvalidTransactionError
              "transaction response is missing op_return script"),
     {| self := blockchain_info;
        log := [{| fmt := "transaction response is missing op_return script: %s";
                   args := [raw] |}] |}).
Proof.
  intros raw.
  refine (proj1 (proj2 (no_zero_value_output_raises BlockchainInfo raw
                          [PDict [("value", PInt 1000);
                                  ("spent", PBool true);
                                  ("addr", PStr "1ABC")]]
                          (world_of blockchain_info) eq_refl _))
                eq_refl).
  intros o [<-|[]]; discriminate.
Defined.

(** ** An output without a value *)

(** C8.  An output record without its value field gets the value 1 from
    [o.get(field, 1)]: the zero test fails on it, the turn of the loop
    leaves [script] as it was, and the script after the loop is the one
    the other outputs give. *)
Theorem missing_value_is_nonzero (p : provider) (d : list (string * pyval)) :
  lookup (value_field p) d = None ->
  get (PDict d) (value_field p) (PInt 1) = Ok (PInt 1)
  /\ zero_value p (PDict d) = Ok false
  /\ (forall r s r' s',
         loop_body_of p (PDict d) (r, s) = Ok (r', s') -> s' = s)
  /\ (forall pre post s,
         script_after p (pre ++ PDict d :: post)%list s
         = script_after p (pre ++ post)%list s).
Proof.
  intros Hd.
  assert (Hz : zero_value p (PDict d) = Ok false).
  { destruct p; cbn [zero_value value_field get] in *; rewrite Hd;
      reflexivity. }
  split; [|split; [exact Hz|split]].
  - cbn [get]; rewrite Hd; reflexivity.
  - intros r s r' s'. rewrite loop_body_step. unfold step. rewrite Hz.
    cbn [bind]. destruct (spent p (PDict d)) as [[|]|]; cbn [bind];
      try discriminate.
    + destruct (address p (PDict d)); cbn [bind]; try discriminate.
      destruct (set_add r a); cbn [bind]; try discriminate.
      intros H; injection H as _ <-; reflexivity.
    + intros H; injection H as _ <-; reflexivity.
  - intros pre post s. rewrite !script_after_app. cbn [script_after].
    rewrite Hz. reflexivity.
Qed.

(** An output of provider B with an address and nothing else. *)
Lemma missing_value_is_nonzero_witness :
  zero_value BlockrIO (PDict [("address", PStr "1ABC")]) = Ok false
  /\ forall s, script_after BlockrIO [PDict [("address", PStr "1ABC")]] s = s.
Proof.
  destruct (missing_value_is_nonzero BlockrIO [("address", PStr "1ABC")]
              eq_refl) as (_ & Hz & _ & Hs).
  split; [exact Hz|]. intros s. exact (Hs [] [] s).
Defined.

(** ** Calling [parse_tx] again *)

(** [parse_tx] never changes the object it is called on. *)
Lemma parse_tx_keeps_self (p : provider) (json_response : pyval) (w : world) :
  self (snd (parse_tx_of p json_response w)) = self w.
Proof.
  rewrite parse_tx_run; unfold run.
  destruct (outputs p json_response); [|reflexivity].
  destruct (for_each _ _ _) as [[r s]|]; [|reflexivity].
  destruct (truthy s); reflexivity.
Qed.

(** What [parse_tx] returns or raises is the same in every world. *)
Lemma parse_tx_any_world
      (p : provider) (json_response : pyval) (w w' : world) :
  fst (parse_tx_of p json_response w) = fst (parse_tx_of p json_response w').
Proof.
  rewrite !parse_tx_run; unfold run.
  destruct (outputs p json_response); [|reflexivity].
  destruct (for_each _ _ _) as [[r s]|]; [|reflexivity].
  destruct (truthy s); reflexivity.
Qed.

(** When [parse_tx] returns, the world is the one it started in. *)
Lemma parse_tx_returns_same_world
      (p : provider) (json_response : pyval) (w w' : world)
      (res : TransactionData) :
  parse_tx_of p json_response w = (Ok res, w') -> w' = w.
Proof.
  rewrite parse_tx_run; unfold run.
  destruct (outputs p json_response); [|discriminate].
  destruct (for_each _ _ _) as [[r s]|]; [|discriminate].
  destruct (truthy s); [|discriminate].
  intros H; injection H as _ <-; reflexivity.
Qed.

(** C9.  When a call of [parse_tx] on a connector returns a result, the
    connector and the log are as before the call, and two calls in a row
    on the same raw response return that result twice. *)
Theorem parse_tx_twice
        (json_response : pyval) (w w1 : world) (res : TransactionData) :
  TransactionLookupConnector.parse_tx json_response w = (Ok res, w1) ->
  w1 = w
  /\ (r1 <~ TransactionLookupConnector.parse_tx json_response ;;
      r2 <~ TransactionLookupConnector.parse_tx json_response ;;
      ret (r1, r2)) w
     = (Ok (res, res), w)
  /\ (forall w2,
         cls (self w2) = cls (self w) ->
         TransactionLookupConnector.parse_tx json_response w2 = (Ok res, w2)).
Proof.
  unfold TransactionLookupConnector.parse_tx, mbind, get_self, ret.
  intros H.
  pose proof (parse_tx_returns_same_world _ _ _ _ _ H) as ->.
  split; [reflexivity|]. split; [rewrite H, H; reflexivity|].
  intros w2 Hcls. rewrite Hcls.
  pose proof (parse_tx_any_world (cls (self w)) json_response w2 w) as Hfst.
  rewrite H in Hfst; cbn [fst] in Hfst.
  destruct (parse_tx_of (cls (self w)) json_response w2) as [c w2'] eqn:H2.
  cbn [fst] in Hfst; subst c.
  rewrite (parse_tx_returns_same_world _ _ _ _ _ H2). reflexivity.
Qed.

(** The end-to-end example, parsed twice by a provider A connector. *)
Lemma parse_tx_twice_witness :
  (r1 <~ TransactionLookupConnector.parse_tx example_response ;;
   r2 <~ TransactionLookupConnector.parse_tx example_response ;;
   ret (r1, r2)) (world_of blockchain_info)
  = (Ok ({| revoked_addresses := [PStr "1ABC"];
            script := PStr "6f7000aabbcc" |},
         {| revoked_addresses := [PStr "1ABC"];
            script := PStr "6f7000aabbcc" |}),
     world_of blockchain_info).
Proof.
  apply (parse_tx_twice example_response (world_of blockchain_info)
           (world_of blockchain_info)).
  reflexivity.
Defined.

(** ** Fetching *)

Lemma append_empty (s : string) : s ++ "" = s.
Proof. induction s as [|c s IH]; cbn; [reflexivity | rewrite IH; reflexivity]. Qed.

(** C5.  When the response to the request has a status code other than
    200, [fetch_tx] logs the transaction id and the status code and
    raises [InvalidTransactionError] with the transaction id in its
    message, whatever the body is; when the status code is 200 it
    returns what decoding the body gives. *)
Theorem fetch_tx_checks_status
        (requests_get : string -> res response)
        (txid u : string) (r : response) (w : world) :
  mod_str (url (self w)) txid = Ok u ->
  requests_get u = Ok r ->
  (status_code r <> 200 ->
   TransactionLookupConnector.fetch_tx requests_get txid w
   = (Raise (InvalidTransactionError
               ("error looking up transaction_id=" ++ txid)),
      logged w
        {| fmt := "Error looking up by transaction_id=%s, status_code=%d";
           args := [PStr txid; PInt (status_code r)] |}))
  /\ (status_code r = 200 ->
      TransactionLookupConnector.fetch_tx requests_get txid w = (json r, w)).
Proof.
  intros Hu Hr.
  unfold TransactionLookupConnector.fetch_tx, mbind, get_self, lift.
  rewrite Hu, Hr. split; intros Hs.
  - apply Z.eqb_neq in Hs; rewrite Hs; cbn [negb].
    unfold logging_error, raise, mod_str; cbn [subst_s].
    rewrite append_empty. reflexivity.
  - rewrite Hs; cbn [Z.eqb negb]. rewrite Pos.eqb_refl.
    destruct (json r); reflexivity.
Qed.

(** A provider A connector, a remote service that answers 404 with a
    body that decodes to the end-to-end example, and the id ["ab12"]. *)
Lemma fetch_tx_checks_status_witness :
  TransactionLookupConnector.fetch_tx
    (fun _ => Ok {| status_code := 404; json := Ok example_response |})
    "ab12" (world_of blockchain_info)
  = (Raise (InvalidTransactionError "error looking up transaction_id=ab12"),
     {| self := blockchain_info;
        log := [{| fmt := "Error looking up by transaction_id=%s, status_code=%d";
                   args := [PStr "ab12"; PInt 404] |}] |}).
Proof.
  apply (proj1 (fetch_tx_checks_status
                  (fun _ => Ok {| status_code := 404;
                                  json := Ok example_response |})
                  "ab12" "https://blockchain.info/rawtx/ab12?cors=true"
                  {| status_code := 404; json := Ok example_response |}
                  (world_of blockchain_info) eq_refl eq_refl)).
  cbn; discriminate.
Defined.

(** ** Construction *)

(** C6.  Providers B and C are built for mainnet and for testnet, with a
    different URL template for each network; provider A is built for
    mainnet, and for testnet its constructor raises a bare [Exception],
    so that no connector exists to look anything up with. *)
Theorem constructors_check_chain :
  (exists c1 c2,
      BlockrIOConnector.__init__ mainnet = Ok c1
      /\ BlockrIOConnector.__init__ testnet = Ok c2
      /\ url c1 <> url c2)
  /\ (exists c1 c2,
         BlockcypherConnector.__init__ mainnet = Ok c1
         /\ BlockcypherConnector.__init__ testnet = Ok c2
         /\ url c1 <> url c2)
  /\ (exists c, BlockchainInfoConnector.__init__ (Some mainnet) = Ok c)
  /\ BlockchainInfoConnector.__init__ (Some testnet)
     = Raise (Exception
         "only mainnet chain is supported with blockchain.info collector").
Proof.
  repeat split.
  - eexists; eexists; repeat split; discriminate.
  - eexists; eexists; repeat split; discriminate.
  - eexists; reflexivity.
Qed.

(** The URL of a connector that was built takes any transaction id. *)
Lemma constructed_url_takes_txid (c : connector) (txid : string) :
  (exists ch, BlockchainInfoConnector.__init__ ch = Ok c)
  \/ (exists ch, BlockrIOConnector.__init__ ch = Ok c)
  \/ (exists ch, BlockcypherConnector.__init__ ch = Ok c) ->
  exists u, mod_str (url c) txid = Ok u.
Proof.
  unfold BlockchainInfoConnector.__init__, BlockrIOConnector.__init__,
         BlockcypherConnector.__init__.
  intros [[ch H]|[[ch H]|[ch H]]].
  - destruct (negb _); [discriminate|]. injection H as <-.
    eexists; reflexivity.
  - destruct (Chain_eqb ch testnet); [injection H as <-; eexists; reflexivity|].
    destruct (Chain_eqb ch mainnet); [injection H as <-; eexists; reflexivity|].
    unfold mod_str in H; cbn [subst_s bind] in H. discriminate.
  - destruct (Chain_eqb ch testnet); [injection H as <-; eexists; reflexivity|].
    destruct (Chain_eqb ch mainnet); [injection H as <-; eexists; reflexivity|].
    unfold mod_str in H; cbn [subst_s bind] in H. discriminate.
Qed.

(** ** The revoked addresses of the result *)

(** An indicator that is absent or counts as false fails the spent check
    of every provider. *)
Lemma spent_absent_or_false (p : provider) (d : list (string * pyval)) :
  lookup (spent_field p) d = None
  \/ (exists v, lookup (spent_field p) d = Some v /\ truthy v = false) ->
  spent p (PDict d) = Ok false.
Proof.
  intros [H|(v & H & Hv)];
    destruct p; cbn [spent spent_field get bind] in *; rewrite H;
    cbn [bind truthy]; try rewrite Hv; reflexivity.
Qed.

(** An indicator that counts as true passes the spent check of providers
    A and C. *)
Lemma spent_truthy (p : provider) (d : list (string * pyval)) (v : pyval) :
  p <> BlockrIO ->
  lookup (spent_field p) d = Some v ->
  truthy v = true ->
  spent p (PDict d) = Ok true.
Proof.
  intros Hp H Hv.
  destruct p; [|contradiction|]; cbn [spent spent_field get bind] in *;
    rewrite H; cbn [bind]; rewrite Hv; reflexivity.
Qed.

(** A value that [float] takes to 49 counts as true. *)
Lemma float_49_truthy (v : pyval) (f : spec_float) :
  float v = Ok f -> float_eq_int f 49 = true -> truthy v = true.
Proof.
  destruct v as [|b|z|g|s| |]; cbn [float truthy]; try discriminate.
  - destruct b; [reflexivity|]. intros H; vm_compute in H.
    injection H as <-. discriminate.
  - destruct z; [|reflexivity|reflexivity]. intros H; vm_compute in H.
    injection H as <-. discriminate.
  - intros H; injection H as ->. destruct f; try reflexivity. discriminate.
  - destruct s; [|reflexivity]. intros H; vm_compute in H. discriminate.
Qed.

(** The spent check of provider B passes exactly when the field is there
    and [float] takes it to 49. *)
Lemma spent_blockr (d : list (string * pyval)) :
  spent BlockrIO (PDict d) = Ok true
  <-> exists v f,
      lookup "is_spent" d = Some v /\ float v = Ok f
      /\ float_eq_int f 49 = true.
Proof.
  cbn [spent get]. destruct (lookup "is_spent" d) as [v|]; cbn [bind truthy].
  - split.
    + destruct (truthy v); [|discriminate].
      destruct (float v) as [f|] eqn:Hf; cbn [bind]; [|discriminate].
      intros H; injection H as H. exists v, f; auto.
    + intros (v' & f & Hv & Hf & H49). injection Hv as <-.
      rewrite (float_49_truthy _ _ Hf H49), Hf; cbn [bind].
      rewrite H49; reflexivity.
  - split; [discriminate|]. intros (v & f & Hv & _); discriminate.
Qed.

(** C2, as the code has it.  The revoked addresses of a result are the
    addresses of the outputs that have a value other than zero and pass
    the provider's spent check, and no others.  An output whose spent
    indicator is absent or counts as false never passes the check; one
    whose indicator counts as true passes the check of providers A and
    C; the check of provider B passes exactly when [float] takes the
    indicator to 49. *)
Theorem revoked_are_spent_outputs
        (p : provider) (json_response : pyval) (w w' : world)
        (res : TransactionData) :
  parse_tx_of p json_response w = (Ok res, w') ->
  exists outs,
    outputs p json_response = Ok outs
    /\ (forall x,
           set_mem x (revoked_addresses res) = true
           <-> exists o a,
               In o outs /\ zero_value p o = Ok false
               /\ spent p o = Ok true /\ address p o = Ok a
               /\ key_eqb (key x) (key a) = true)
    /\ (forall d,
           lookup (spent_field p) d = None
           \/ (exists v, lookup (spent_field p) d = Some v
                         /\ truthy v = false) ->
           spent p (PDict d) = Ok false)
    /\ (forall d v,
           p <> BlockrIO ->
           lookup (spent_field p) d = Some v -> truthy v = true ->
           spent p (PDict d) = Ok true)
    /\ (forall d,
           spent BlockrIO (PDict d) = Ok true
           <-> exists v f,
               lookup "is_spent" d = Some v /\ float v = Ok f
               /\ float_eq_int f 49 = true).
Proof.
  intros H. destruct (parse_tx_returns _ _ _ _ _ H) as (outs & Ho & _ & Hr & _).
  exists outs. split; [exact Ho|]. split; [|split; [|split]].
  - intros x. rewrite Hr, revoked_after_mem. cbn [set_mem existsb].
    split; [intros [E|E]; [discriminate|exact E] | auto].
  - apply spent_absent_or_false.
  - intros d v; apply spent_truthy.
  - apply spent_blockr.
Qed.

(** In the end-to-end example the revoked address comes from an output
    that passes the spent check. *)
Lemma revoked_are_spent_outputs_witness :
  exists outs o a,
    outputs BlockchainInfo example_response = Ok outs
    /\ In o outs /\ spent BlockchainInfo o = Ok true
    /\ address BlockchainInfo o = Ok a
    /\ key_eqb (PStr "1ABC") (key a) = true.
Proof.
  destruct (revoked_are_spent_outputs
              BlockchainInfo example_response
              (world_of blockchain_info) (world_of blockchain_info)
              {| revoked_addresses := [PStr "1ABC"];
                 script := PStr "6f7000aabbcc" |} eq_refl)
    as (outs & Ho & Hx & _).
  destruct (proj1 (Hx (PStr "1ABC")) eq_refl)
    as (o & a & Hin & _ & Hs & Ha & Hk).
  exists outs, o, a. auto.
Defined.

(** C2, as the spec has it, fails for provider B: outputs whose
    [is_spent] is [true] and [1] have a value other than zero and a spent
    indicator that is present and true, and their addresses are not
    revoked. *)
Lemma spent_true_not_revoked_by_blockr :
  parse_tx_of BlockrIO
    (PDict [("data",
             PDict [("vouts",
                     PList [PDict [("amount", PInt 0);
                                   ("extras",
                                    PDict [("script", PStr "6a20abcd")])];
                            PDict [("amount", PInt 1000);
                                   ("is_spent", PBool true);
                                   ("address", PStr "1ABC")];
                            PDict [("amount", PInt 2000);
                                   ("is_spent", PInt 1);
                                   ("address", PStr "1DEF")]])])])
    (world_of blockr_io)
  = (Ok {| revoked_addresses := []; script := PStr "abcd" |},
     world_of blockr_io).
Proof. reflexivity. Qed.

(** An output with a value other than zero that fails the spent check
    can be left out of the list: the loop ends as it did. *)
Lemma loop_without_unspent (p : provider) (pre post : list pyval) (o : pyval) :
  zero_value p o = Ok false ->
  spent p o <> Ok true ->
  forall r s,
    revoked_after p (pre ++ o :: post)%list r
    = revoked_after p (pre ++ post)%list r
    /\ script_after p (pre ++ o :: post)%list s
       = script_after p (pre ++ post)%list s.
Proof.
  intros Hz Hs r s.
  rewrite !revoked_after_app, !script_after_app.
  cbn [revoked_after script_after]. rewrite Hz.
  destruct (spent p o) as [[|]|]; [contradiction| |]; auto.
Qed.

Lemma parse_tx_without_unspent
      (p : provider) (raw raw' : pyval) (pre post : list pyval) (o : pyval)
      (w : world) (res : TransactionData) :
  zero_value p o = Ok false ->
  spent p o <> Ok true ->
  outputs p raw = Ok (pre ++ o :: post)%list ->
  outputs p raw' = Ok (pre ++ post)%list ->
  parse_tx_of p raw w = (Ok res, w) ->
  parse_tx_of p raw' w = (Ok res, w).
Proof.
  intros Hz Hs Hout Hout' H.
  pose proof (parse_tx_script_truthy _ _ _ _ _ H) as Ht.
  destruct (parse_tx_returns _ _ _ _ _ H) as (outs & Ho & Hacc & Hr & Hsc).
  rewrite Hout in Ho; injection Ho as <-.
  destruct (loop_without_unspent p pre post o Hz Hs [] PNone) as [Er Es].
  rewrite Er in Hr. rewrite Es in Hsc.
  rewrite parse_tx_run; unfold run; rewrite Hout'.
  rewrite loop_accepted.
  - rewrite <- Hsc, Ht, <- Hr. destruct res; reflexivity.
  - rewrite forallb_app in *. cbn [forallb] in Hacc.
    apply andb_true_iff in Hacc as [Hpre Hrest].
    apply andb_true_iff in Hrest as [_ Hpost].
    rewrite Hpre, Hpost; reflexivity.
Qed.

(** The address of an output that passes the spent check is a member of
    the revoked addresses. *)
Lemma spent_output_revoked
      (p : provider) (raw : pyval) (outs : list pyval) (o : pyval)
      (w w' : world) (res : TransactionData) :
  parse_tx_of p raw w = (Ok res, w') ->
  outputs p raw = Ok outs ->
  In o outs ->
  zero_value p o = Ok false ->
  spent p o = Ok true ->
  exists a, address p o = Ok a
            /\ set_mem a (revoked_addresses res) = true.
Proof.
  intros H Hout Hin Hz Hs.
  destruct (parse_tx_returns _ _ _ _ _ H) as (outs' & Ho & Hacc & Hr & _).
  rewrite Hout in Ho; injection Ho as <-.
  rewrite forallb_forall in Hacc. specialize (Hacc o Hin).
  unfold accepts in Hacc. rewrite Hz, Hs in Hacc.
  destruct (address p o) as [a|] eqn:Ha; [|discriminate].
  exists a. split; [reflexivity|].
  rewrite Hr. apply revoked_after_mem. right.
  exists o, a. auto 7 using key_eqb_refl.
Qed.

(** ** Provider B *)

(** C3.  For an output of provider B with an amount other than zero:
    the spent check passes exactly when [is_spent] is there and [float]
    takes it to 49; then the address of the output is a member of the
    revoked addresses of the result; otherwise the result is the one the
    other outputs give.  An [is_spent] that is absent, 0, 1, [False],
    [True] or [None] is of the second kind; an int is of the first kind
    exactly when it is 49. *)
Theorem blockr_revokes_on_49 (d : list (string * pyval)) :
  zero_value BlockrIO (PDict d) = Ok false ->
  (spent BlockrIO (PDict d) = Ok true
   <-> exists v f, lookup "is_spent" d = Some v /\ float v = Ok f
                   /\ float_eq_int f 49 = true)
  /\ (spent BlockrIO (PDict d) = Ok true ->
      forall raw outs w w' res,
        parse_tx_of BlockrIO raw w = (Ok res, w') ->
        outputs BlockrIO raw = Ok outs ->
        In (PDict d) outs ->
        exists a, get (PDict d) "address" PNone = Ok a
                  /\ set_mem a (revoked_addresses res) = true)
  /\ (spent BlockrIO (PDict d) <> Ok true ->
      forall raw raw' pre post w res,
        outputs BlockrIO raw = Ok (pre ++ PDict d :: post)%list ->
        outputs BlockrIO raw' = Ok (pre ++ post)%list ->
        parse_tx_of BlockrIO raw w = (Ok res, w) ->
        parse_tx_of BlockrIO raw' w = (Ok res, w))
  /\ (In (lookup "is_spent" d)
         [None; Some (PInt 0); Some (PInt 1); Some (PBool false);
          Some (PBool true); Some PNone] ->
      spent BlockrIO (PDict d) = Ok false)
  /\ (forall z,
         lookup "is_spent" d = Some (PInt z) -> Z.abs z < 2 ^ 53 ->
         (spent BlockrIO (PDict d) = Ok true <-> z = 49)).
Proof.
  intros Hz. split; [apply spent_blockr|]. split; [|split; [|split]].
  - intros Hs raw outs w w' res H Hout Hin.
    apply (spent_output_revoked BlockrIO raw outs (PDict d) w w' res);
      assumption.
  - intros Hs raw raw' pre post w res Hout Hout' H.
    apply (parse_tx_without_unspent BlockrIO raw raw' pre post (PDict d));
      assumption.
  - cbn [In spent get].
    intros [E|[E|[E|[E|[E|[E|[]]]]]]]; rewrite <- E; reflexivity.
  - intros z Hd Hb. rewrite (spent_blockr_int d z Hd Hb).
    split; intros H.
    + injection H as H. apply Z.eqb_eq, H.
    + subst z; reflexivity.
Qed.

(** An output of provider B with [is_spent] 49, after the anchoring
    output: its address is revoked. *)
Lemma blockr_revokes_on_49_witness :
  exists a,
    get (PDict [("amount", PInt 1000); ("is_spent", PInt 49);
                ("address", PStr "1ABC")]) "address" PNone = Ok a
    /\ set_mem a [PStr "1ABC"] = true.
Proof.
  pose (o := PDict [("amount", PInt 1000); ("is_spent", PInt 49);
                    ("address", PStr "1ABC")]).
  pose (z := PDict [("amount", PInt 0);
                    ("extras", PDict [("script", PStr "6a20abcd")])]).
  destruct (blockr_revokes_on_49
              [("amount", PInt 1000); ("is_spent", PInt 49);
               ("address", PStr "1ABC")] eq_refl) as (_ & Hin & _).
  apply (Hin eq_refl
           (PDict [("data", PDict [("vouts", PList [z; o])])]) [z; o]
           (world_of blockr_io) (world_of blockr_io)
           {| revoked_addresses := [PStr "1ABC"]; script := PStr "abcd" |}).
  - reflexivity.
  - reflexivity.
  - right; left; reflexivity.
Defined.

(** ** An output without an address *)

Lemma set_mem_none (s : pyset) : set_mem PNone s = true -> In PNone s.
Proof.
  intros H. apply set_mem_In in H as (b & Hin & Hk).
  apply key_eqb_eq in Hk. cbn [key] in Hk.
  destruct b; cbn [key] in Hk; try discriminate; [exact Hin|].
  destruct (float_integral f); discriminate.
Qed.

(** C10.  Under provider C an output with a value other than zero and a
    [spent_by] that counts as true but no [addresses] makes its turn of
    the loop raise [TypeError]: [parse_tx] then raises an untyped
    exception and not [InvalidTransactionError], and it is that
    [TypeError] when the outputs before go through.  Under provider A
    an output with a value other than zero and a [spent] that counts as
    true but no [addr] adds [None] to the revoked addresses. *)
Theorem missing_address_field (d : list (string * pyval)) (v : pyval) :
  (zero_value Blockcypher (PDict d) = Ok false ->
   lookup "spent_by" d = Some v -> truthy v = true ->
   lookup "addresses" d = None ->
   (forall st, loop_body_of Blockcypher (PDict d) st = Raise TypeError)
   /\ (forall raw outs w,
          outputs Blockcypher raw = Ok outs -> In (PDict d) outs ->
          exists e, parse_tx_of Blockcypher raw w = (Raise e, w)
                    /\ untyped e = true)
   /\ (forall raw pre post w,
          outputs Blockcypher raw = Ok (pre ++ PDict d :: post)%list ->
          forallb (accepts Blockcypher) pre = true ->
          parse_tx_of Blockcypher raw w = (Raise TypeError, w)))
  /\ (zero_value BlockchainInfo (PDict d) = Ok false ->
      lookup "spent" d = Some v -> truthy v = true ->
      lookup "addr" d = None ->
      (forall r s,
          loop_body_of BlockchainInfo (PDict d) (r, s) = Ok (add PNone r, s))
      /\ (forall raw outs w w' res,
             parse_tx_of BlockchainInfo raw w = (Ok res, w') ->
             outputs BlockchainInfo raw = Ok outs -> In (PDict d) outs ->
             In PNone (revoked_addresses res))).
Proof.
  split.
  - intros Hz Hsp Hv Had.
    assert (Hstep : forall st, step Blockcypher (PDict d) st = Raise TypeError).
    { intros [r s]. unfold step. rewrite Hz; cbn [bind].
      cbn [spent address get]. rewrite Hsp, Had; cbn [bind]. rewrite Hv.
      reflexivity. }
    assert (Hacc : accepts Blockcypher (PDict d) = false).
    { unfold accepts. rewrite Hz. cbn [spent address get].
      rewrite Hsp, Had; cbn [bind]. rewrite Hv. reflexivity. }
    split; [|split].
    + intros st. rewrite loop_body_step. apply Hstep.
    + intros raw outs w Hout Hin.
      rewrite parse_tx_run; unfold run; rewrite Hout.
      destruct (for_each (step Blockcypher) outs ([], PNone))
        as [[r s]|e] eqn:Hloop.
      * apply loop_returns in Hloop as [Hall _].
        rewrite forallb_forall in Hall. rewrite (Hall _ Hin) in Hacc.
        discriminate.
      * exists e. split; [reflexivity|].
        apply (untyped_loop Blockcypher outs ([], PNone)), Hloop.
    + intros raw pre post w Hout Hpre.
      rewrite parse_tx_run; unfold run; rewrite Hout.
      rewrite for_each_app, (loop_accepted _ _ _ _ Hpre).
      cbn [bind for_each]. rewrite Hstep. reflexivity.
  - intros Hz Hsp Hv Had.
    assert (Hs : spent BlockchainInfo (PDict d) = Ok true).
    { cbn [spent get]. rewrite Hsp; cbn [bind]. rewrite Hv. reflexivity. }
    split.
    + intros r s. rewrite loop_body_step. unfold step.
      rewrite Hz, Hs; cbn [bind address get]. rewrite Had. reflexivity.
    + intros raw outs w w' res H Hout Hin.
      destruct (spent_output_revoked _ _ _ _ _ _ _ H Hout Hin Hz Hs)
        as (a & Ha & Hm).
      cbn [address get] in Ha. rewrite Had in Ha. injection Ha as <-.
      apply set_mem_none, Hm.
Qed.

(** Provider C: a spent output without [addresses] after the anchoring
    output.  Provider A: a spent output without [addr]. *)
Lemma missing_address_field_witness :
  parse_tx_of Blockcypher
    (PDict [("outputs",
             PList [PDict [("value", PInt 0); ("data_hex", PStr "abcd")];
                    PDict [("value", PInt 1000);
                           ("spent_by", PStr "f00d")]])])
    (world_of blockcypher)
  = (Raise TypeError, world_of blockcypher)
  /\ loop_body_of BlockchainInfo
       (PDict [("value", PInt 1000); ("spent", PBool true)]) ([], PNone)
     = Ok ([PNone], PNone).
Proof.
  split.
  - apply (proj2 (proj2 (proj1 (missing_address_field
                                  [("value", PInt 1000);
                                   ("spent_by", PStr "f00d")]
                                  (PStr "f00d"))
                               eq_refl eq_refl eq_refl eq_refl))
             _ [PDict [("value", PInt 0); ("data_hex", PStr "abcd")]] []);
      reflexivity.
  - apply (proj1 (proj2 (missing_address_field
                           [("value", PInt 1000); ("spent", PBool true)]
                           (PBool true))
                        eq_refl eq_refl eq_refl eq_refl)).
Defined.

(* ================================================================== *)
(** * Further properties of the module *)
(* ================================================================== *)

Import Edge.

(** ** The constructors and the factory *)

Lemma Chain_eqb_eq (a b : Chain) : Chain_eqb a b = true <-> a = b.
Proof.
  destruct a, b; cbn [Chain_eqb]; split; intros H;
    try discriminate; try reflexivity.
  - apply String.eqb_eq in H; congruence.
  - injection H as ->; apply String.eqb_refl.
Qed.

(** X1.  The factory builds a provider B connector or nothing: with no
    chain or mainnet the one of the mainnet host, with testnet the one
    of the testnet host, and a call of [parse_tx] on what it built runs
    the [parse_tx] of provider B. *)
Theorem factory_builds_blockr (chain : option Chain) (c : connector) :
  createTransactionLookupConnector chain = Ok c ->
  cls c = BlockrIO
  /\ (chain = None \/ chain = Some mainnet ->
      url c = "https://btc.blockr.io/api/v1/tx/info/%s")
  /\ (chain = Some testnet ->
      url c = "https://tbtc.blockr.io/api/v1/tx/info/%s")
  /\ (chain = None \/ chain = Some mainnet \/ chain = Some testnet)
  /\ (forall raw w,
         self w = c ->
         TransactionLookupConnector.parse_tx raw w
         = BlockrIOConnector.parse_tx raw w).
Proof.
  unfold createTransactionLookupConnector, BlockrIOConnector.__init__.
  intros H.
  assert (Hc : cls c = BlockrIO
               /\ (chain = None \/ chain = Some mainnet ->
                   url c = "https://btc.blockr.io/api/v1/tx/info/%s")
               /\ (chain = Some testnet ->
                   url c = "https://tbtc.blockr.io/api/v1/tx/info/%s")
               /\ (chain = None \/ chain = Some mainnet
                   \/ chain = Some testnet)).
  { destruct chain as [[| |n]|]; cbn in H; try discriminate;
      injection H as <-; cbn [cls url];
      repeat split; auto; intros E; try discriminate E;
      destruct E as [E|E]; discriminate E. }
  destruct Hc as (Hcls & Hm & Ht & Hch). repeat split; auto.
  intros raw w Hw.
  unfold TransactionLookupConnector.parse_tx, mbind, get_self.
  rewrite Hw, Hcls. reflexivity.
Qed.

(** The factory called without a chain. *)
Lemma factory_builds_blockr_witness :
  url blockr_io = "https://btc.blockr.io/api/v1/tx/info/%s"
  /\ TransactionLookupConnector.parse_tx example_response
       (world_of blockr_io)
     = (Raise KeyError, world_of blockr_io).
Proof.
  destruct (factory_builds_blockr None blockr_io eq_refl)
    as (_ & Hu & _ & _ & Hp).
  split; [apply Hu; left; reflexivity|].
  rewrite (Hp example_response (world_of blockr_io) eq_refl). reflexivity.
Defined.

(** X2.  The constructors of providers B and C return a connector
    exactly for mainnet and testnet, the one of provider A exactly for
    mainnet or no chain; for any other member of [Chain] the
    constructors of B and C, and the factory, raise a bare [Exception]
    whose message carries the member. *)
Theorem constructors_accept :
  (forall ch, (exists c, BlockrIOConnector.__init__ ch = Ok c)
              <-> ch = mainnet \/ ch = testnet)
  /\ (forall ch, (exists c, BlockcypherConnector.__init__ ch = Ok c)
                 <-> ch = mainnet \/ ch = testnet)
  /\ (forall ch, (exists c, BlockchainInfoConnector.__init__ ch = Ok c)
                 <-> ch = None \/ ch = Some mainnet)
  /\ (forall n,
         BlockrIOConnector.__init__ (other n)
         = Raise (Exception
             ("unsupported chain (Chain." ++ n ++
              ") requested with BlockrIO collector. Currently only testnet and mainnet are supported"))
         /\ createTransactionLookupConnector (Some (other n))
            = BlockrIOConnector.__init__ (other n)
         /\ BlockcypherConnector.__init__ (other n)
            = Raise (Exception
                ("unsupported chain (Chain." ++ n ++
                 ") requested with blockcypher collector. Currently only testnet and mainnet are supported"))
         /\ exists msg,
             BlockchainInfoConnector.__init__ (Some (other n))
             = Raise (Exception msg)).
Proof.
  unfold BlockrIOConnector.__init__, BlockcypherConnector.__init__,
         BlockchainInfoConnector.__init__, createTransactionLookupConnector.
  split; [|split; [|split]].
  - intros [| |n]; cbn; split; intros H; eauto.
    + destruct H as [c H]; discriminate H.
    + destruct H as [H|H]; discriminate H.
  - intros [| |n]; cbn; split; intros H; eauto.
    + destruct H as [c H]; discriminate H.
    + destruct H as [H|H]; discriminate H.
  - intros [[| |n]|]; cbn; split; intros H; eauto.
    + destruct H as [c H]; discriminate H.
    + destruct H as [H|H]; discriminate H.
    + destruct H as [c H]; discriminate H.
    + destruct H as [H|H]; discriminate H.
  - intros n. cbn. unfold mod_str. cbn [subst_s bind]. repeat split.
    eexists; reflexivity.
Qed.

(** The member [regtest]. *)
Lemma constructors_accept_witness :
  createTransactionLookupConnector (Some (other "regtest"))
  = Raise (Exception
      "unsupported chain (Chain.regtest) requested with BlockrIO collector. Currently only testnet and mainnet are supported").
Proof.
  destruct constructors_accept as (_ & _ & _ & H).
  destruct (H "regtest") as (Hb & Hf & _).
  rewrite Hf, Hb. reflexivity.
Defined.

(** ** Fetching and looking up *)

(** X3.  The URL of a connector that was built is a prefix, [%s] and a
    suffix; [fetch_tx] puts the transaction id between the two as it is,
    whatever characters it holds, and asks the transport for that URL
    and no other. *)
Theorem fetch_tx_requests_spliced_url (c : connector) :
  built c ->
  exists pre suf,
    url c = pre ++ "%s" ++ suf
    /\ forall txid,
        mod_str (url c) txid = Ok (pre ++ txid ++ suf)
        /\ forall get get' w,
            self w = c ->
            get (pre ++ txid ++ suf) = get' (pre ++ txid ++ suf) ->
            TransactionLookupConnector.fetch_tx get txid w
            = TransactionLookupConnector.fetch_tx get' txid w.
Proof.
  assert (Hgen : forall pre suf,
             url c = pre ++ "%s" ++ suf ->
             (forall txid, mod_str (url c) txid = Ok (pre ++ txid ++ suf)) ->
             exists pre suf,
               url c = pre ++ "%s" ++ suf
               /\ forall txid,
                   mod_str (url c) txid = Ok (pre ++ txid ++ suf)
                   /\ forall get get' w,
                       self w = c ->
                       get (pre ++ txid ++ suf) = get' (pre ++ txid ++ suf) ->
                       TransactionLookupConnector.fetch_tx get txid w
                       = TransactionLookupConnector.fetch_tx get' txid w).
  { intros pre suf Hu Hm. exists pre, suf. split; [exact Hu|].
    intros txid. split; [apply Hm|]. intros get get' w Hw Hg.
    unfold TransactionLookupConnector.fetch_tx, mbind, get_self, lift.
    rewrite Hw, Hm, Hg. reflexivity. }
  unfold built, BlockchainInfoConnector.__init__, BlockrIOConnector.__init__,
         BlockcypherConnector.__init__.
  intros [[ch H]|[[ch H]|[ch H]]].
  - destruct (negb _); [discriminate|]. injection H as <-.
    apply (Hgen "https://blockchain.info/rawtx/" "?cors=true");
      [reflexivity|intros txid; reflexivity].
  - destruct (Chain_eqb ch testnet);
      [injection H as <-;
       apply (Hgen "https://tbtc.blockr.io/api/v1/tx/info/" "");
       [reflexivity|intros txid; reflexivity]|].
    destruct (Chain_eqb ch mainnet);
      [injection H as <-;
       apply (Hgen "https://btc.blockr.io/api/v1/tx/info/" "");
       [reflexivity|intros txid; reflexivity]|].
    unfold mod_str in H; cbn [subst_s bind] in H. discriminate.
  - destruct (Chain_eqb ch testnet);
      [injection H as <-;
       apply (Hgen "http://api.blockcypher.com/v1/btc/test3/txs/"
                   "?limit=100");
       [reflexivity|intros txid; reflexivity]|].
    destruct (Chain_eqb ch mainnet);
      [injection H as <-;
       apply (Hgen "https://api.blockcypher.com/v1/btc/main/txs/"
                   "?limit=100");
       [reflexivity|intros txid; reflexivity]|].
    unfold mod_str in H; cbn [subst_s bind] in H. discriminate.
Qed.

(** The provider A connector and an id with a slash and a [%s] in it. *)
Lemma fetch_tx_requests_spliced_url_witness :
  exists pre suf,
    url blockchain_info = pre ++ "%s" ++ suf
    /\ mod_str (url blockchain_info) "ab/%s" = Ok (pre ++ "ab/%s" ++ suf).
Proof.
  destruct (fetch_tx_requests_spliced_url blockchain_info
              (or_introl (ex_intro _ None eq_refl)))
    as (pre & suf & Hu & H).
  exists pre, suf. split; [exact Hu | exact (proj1 (H "ab/%s"))].
Defined.

(** X4.  An exception of the transport, from the request or from
    decoding the body of a 200 response, leaves [fetch_tx] and
    [lookup_tx] as it is: nothing is logged and [parse_tx] is not
    reached. *)
Theorem lookup_tx_propagates
        (requests_get : string -> res response)
        (txid u : string) (w : world) (e : exn) :
  mod_str (url (self w)) txid = Ok u ->
  requests_get u = Raise e
  \/ (exists r, requests_get u = Ok r /\ status_code r = 200
                /\ json r = Raise e) ->
  TransactionLookupConnector.fetch_tx requests_get txid w = (Raise e, w)
  /\ TransactionLookupConnector.lookup_tx requests_get txid w = (Raise e, w).
Proof.
  intros Hu H.
  assert (Hf : TransactionLookupConnector.fetch_tx requests_get txid w
               = (Raise e, w)).
  { unfold TransactionLookupConnector.fetch_tx, mbind, get_self, lift.
    rewrite Hu. destruct H as [H|(r & H & Hs & Hj)]; rewrite H.
    - reflexivity.
    - rewrite Hs, Hj. reflexivity. }
  split; [exact Hf|].
  unfold TransactionLookupConnector.lookup_tx, mbind. rewrite Hf.
  reflexivity.
Qed.

(** A 200 response whose body does not decode. *)
Lemma lookup_tx_propagates_witness :
  TransactionLookupConnector.lookup_tx (answer 200 (Raise ValueError))
    "ab12" (world_of blockchain_info)
  = (Raise ValueError, world_of blockchain_info).
Proof.
  apply (lookup_tx_propagates (answer 200 (Raise ValueError)) "ab12"
           "https://blockchain.info/rawtx/ab12?cors=true"
           (world_of blockchain_info) ValueError eq_refl).
  right. eexists; repeat split; reflexivity.
Defined.

(** X5.  On a 200 response whose body decodes, [lookup_tx] is the
    [parse_tx] of the connector's class on the decoded body: the same
    outcome and the same world. *)
Theorem lookup_tx_parses_200
        (requests_get : string -> res response)
        (txid u : string) (r : response) (raw : pyval) (w : world) :
  mod_str (url (self w)) txid = Ok u ->
  requests_get u = Ok r ->
  status_code r = 200 ->
  json r = Ok raw ->
  TransactionLookupConnector.lookup_tx requests_get txid w
  = parse_tx_of (cls (self w)) raw w.
Proof.
  intros Hu Hr Hs Hj.
  unfold TransactionLookupConnector.lookup_tx,
         TransactionLookupConnector.fetch_tx,
         TransactionLookupConnector.parse_tx, mbind, get_self, lift.
  rewrite Hu, Hr, Hs, Hj. reflexivity.
Qed.

(** The end-to-end example, looked up through a provider A connector. *)
Lemma lookup_tx_parses_200_witness :
  TransactionLookupConnector.lookup_tx (answer 200 (Ok example_response))
    "ab12" (world_of blockchain_info)
  = (Ok {| revoked_addresses := [PStr "1ABC"];
           script := PStr "6f7000aabbcc" |},
     world_of blockchain_info).
Proof.
  rewrite (lookup_tx_parses_200 (answer 200 (Ok example_response)) "ab12"
             "https://blockchain.info/rawtx/ab12?cors=true"
             {| status_code := 200; json := Ok example_response |}
             example_response (world_of blockchain_info)
             eq_refl eq_refl eq_refl eq_refl).
  reflexivity.
Defined.

(** ** The outcomes of [parse_tx] and [lookup_tx] *)

Lemma untyped_iter (x : pyval) : raises_untyped (iter x).
Proof. unfold iter; builtin_cases. Qed.

Lemma untyped_outputs (p : provider) (raw : pyval) :
  raises_untyped (outputs p raw).
Proof.
  destruct p; unfold outputs;
    repeat (apply untyped_bind; [|intros ?]);
    auto using untyped_getitem, untyped_iter.
Qed.

(** The three ways a [parse_tx] ends. *)
Lemma parse_tx_ends (p : provider) (raw : pyval) (w : world) :
  (exists res,
      parse_tx_of p raw w = (Ok res, w) /\ truthy (script res) = true)
  \/ parse_tx_of p raw w
     = (Raise (InvalidTransactionError missing_script),
        logged w (missing_script_record raw))
  \/ (exists e, parse_tx_of p raw w = (Raise e, w) /\ untyped e = true).
Proof.
  rewrite parse_tx_run; unfold run.
  destruct (outputs p raw) as [outs|e] eqn:Hout.
  - destruct (for_each (step p) outs ([], PNone)) as [[r s]|e] eqn:Hloop.
    + destruct (truthy s) eqn:Hs.
      * left. eexists; split; [reflexivity | exact Hs].
      * right; left; reflexivity.
    + right; right. exists e. split; [reflexivity|].
      apply (untyped_loop p outs ([], PNone)), Hloop.
  - right; right. exists e. split; [reflexivity|].
    apply (untyped_outputs p raw), Hout.
Qed.

(** X6.  A [parse_tx] ends in one of three ways: it returns a result
    whose script counts as true and leaves the world as it was; or it
    logs one record with the raw response and raises
    [InvalidTransactionError]; or it raises an untyped exception and
    leaves the world as it was.  So it writes to the log exactly when it
    raises [InvalidTransactionError], and never changes the connector. *)
Theorem parse_tx_outcomes (p : provider) (raw : pyval) (w : world) :
  ((exists res,
       parse_tx_of p raw w = (Ok res, w) /\ truthy (script res) = true)
   \/ parse_tx_of p raw w
      = (Raise (InvalidTransactionError missing_script),
         logged w (missing_script_record raw))
   \/ (exists e, parse_tx_of p raw w = (Raise e, w) /\ untyped e = true))
  /\ (log (snd (parse_tx_of p raw w)) <> log w
      <-> exists msg,
          fst (parse_tx_of p raw w) = Raise (InvalidTransactionError msg))
  /\ self (snd (parse_tx_of p raw w)) = self w.
Proof.
  pose proof (parse_tx_ends p raw w) as H.
  split; [exact H|]. split.
  - destruct H as [(res & -> & _)|[->|(e & -> & He)]]; cbn [fst snd].
    + split; [intros N; contradiction N; reflexivity|].
      intros [msg Hm]; discriminate Hm.
    + split; [eauto|]. intros _. cbn [logged log]. intros E.
      apply (f_equal (@List.length log_record)) in E.
      rewrite length_app in E. cbn [List.length] in E. lia.
    + split; [intros N; contradiction N; reflexivity|].
      intros [msg Hm]. injection Hm as ->. discriminate He.
  - destruct H as [(res & -> & _)|[->|(e & -> & He)]]; reflexivity.
Qed.

(** X7.  When [lookup_tx] returns a result, the world is as it was, the
    script of the result counts as true, and the result is what the
    [parse_tx] of the connector's class gives on the decoded body of a
    response with status code 200. *)
Theorem lookup_tx_result
        (requests_get : string -> res response)
        (txid : string) (w w' : world) (res : TransactionData) :
  TransactionLookupConnector.lookup_tx requests_get txid w = (Ok res, w') ->
  w' = w
  /\ truthy (script res) = true
  /\ exists u r raw,
      mod_str (url (self w)) txid = Ok u
      /\ requests_get u = Ok r
      /\ status_code r = 200
      /\ json r = Ok raw
      /\ parse_tx_of (cls (self w)) raw w = (Ok res, w).
Proof.
  unfold TransactionLookupConnector.lookup_tx,
         TransactionLookupConnector.fetch_tx,
         TransactionLookupConnector.parse_tx, mbind, get_self, lift.
  destruct (mod_str (url (self w)) txid) as [u|] eqn:Hu; [|discriminate].
  destruct (requests_get u) as [r|] eqn:Hr; [|discriminate].
  destruct (status_code r =? 200) eqn:Hs; cbn [negb].
  - apply Z.eqb_eq in Hs.
    destruct (json r) as [raw|] eqn:Hj; [|discriminate].
    intros H.
    pose proof (parse_tx_returns_same_world _ _ _ _ _ H) as ->.
    split; [reflexivity|].
    split; [exact (parse_tx_script_truthy _ _ _ _ _ H)|].
    exists u, r, raw. auto.
  - unfold logging_error, raise.
    destruct (mod_str _ txid); discriminate.
Qed.

(** The end-to-end example, looked up through a provider A connector. *)
Lemma lookup_tx_result_witness :
  exists u r,
    mod_str (url blockchain_info) "ab12" = Ok u
    /\ answer 200 (Ok example_response) u = Ok r
    /\ status_code r = 200.
Proof.
  destruct (lookup_tx_result (answer 200 (Ok example_response)) "ab12"
              (world_of blockchain_info) (world_of blockchain_info)
              {| revoked_addresses := [PStr "1ABC"];
                 script := PStr "6f7000aabbcc" |} eq_refl)
    as (_ & _ & u & r & raw & Hu & Hr & Hs & _).
  exists u, r. auto.
Defined.

(** The message of [fetch_tx] is not the one of [parse_tx]. *)
Lemma fetch_message_differs (txid : string) :
  "error looking up transaction_id=" ++ txid <> missing_script.
Proof. cbn. discriminate. Qed.

(** X8.  With a transport that raises none but untyped exceptions,
    [lookup_tx] never changes the connector, and it writes to the log
    exactly when it raises [InvalidTransactionError]: one record, the
    status record with the message that carries the transaction id, or
    the record of a raw response with the message of the missing
    script. *)
Theorem lookup_tx_logs_what_it_raises
        (requests_get : string -> res response)
        (txid : string) (w : world) :
  transport_untyped requests_get ->
  let out := TransactionLookupConnector.lookup_tx requests_get txid w in
  self (snd out) = self w
  /\ ((exists msg, fst out = Raise (InvalidTransactionError msg))
      -> exists msg rec,
          out = (Raise (InvalidTransactionError msg), logged w rec)
          /\ ((msg = "error looking up transaction_id=" ++ txid
               /\ exists code, code <> 200 /\ rec = status_record txid code)
              \/ (msg = missing_script
                  /\ exists raw, rec = missing_script_record raw)))
  /\ ((forall msg, fst out <> Raise (InvalidTransactionError msg))
      -> snd out = w).
Proof.
  intros Ht out; subst out.
  unfold TransactionLookupConnector.lookup_tx,
         TransactionLookupConnector.fetch_tx,
         TransactionLookupConnector.parse_tx, mbind, get_self, lift.
  destruct (mod_str (url (self w)) txid) as [u|e] eqn:Hu.
  - destruct (Ht u) as [Hget Hjson].
    destruct (requests_get u) as [r|e] eqn:Hr.
    + destruct (status_code r =? 200) eqn:Hs; cbn [negb].
      * destruct (json r) as [raw|e] eqn:Hj.
        -- destruct (parse_tx_ends (cls (self w)) raw w)
             as [(res & -> & _)|[->|(e & -> & He)]]; cbn [fst snd].
           ++ repeat split; [intros [msg Hm]; discriminate Hm].
           ++ split; [reflexivity|]. split.
              ** intros _. exists missing_script, (missing_script_record raw).
                 split; [reflexivity|]. right. eauto.
              ** intros N. exfalso. apply (N missing_script). reflexivity.
           ++ repeat split. intros [msg Hm]. injection Hm as ->.
              discriminate He.
        -- specialize (Hjson r eq_refl). rewrite Hj in Hjson.
           specialize (Hjson e eq_refl).
           cbn [fst snd]. repeat split. intros [msg Hm]. injection Hm as ->.
           discriminate Hjson.
      * unfold logging_error, raise, mod_str; cbn [subst_s].
        rewrite append_empty. cbn [fst snd]. split; [reflexivity|]. split.
        -- intros _. eexists; exists (status_record txid (status_code r)).
           split; [reflexivity|]. left. split; [reflexivity|].
           exists (status_code r). split; [|reflexivity].
           apply Z.eqb_neq, Hs.
        -- intros N. exfalso. eapply N. reflexivity.
    + specialize (Hget e eq_refl).
      cbn [fst snd]. repeat split. intros [msg Hm]. injection Hm as ->.
      discriminate Hget.
  - unfold mod_str in Hu. destruct (subst_s _ _); [discriminate|].
    injection Hu as <-.
    cbn [fst snd]. repeat split. intros [msg Hm]. discriminate Hm.
Qed.

(** A 404 answer to a provider A connector. *)
Lemma lookup_tx_logs_what_it_raises_witness :
  exists msg rec,
    TransactionLookupConnector.lookup_tx
      (answer 404 (Ok example_response)) "ab12" (world_of blockchain_info)
    = (Raise (InvalidTransactionError msg),
       logged (world_of blockchain_info) rec).
Proof.
  assert (Ht : transport_untyped (answer 404 (Ok example_response))).
  { intros u. split.
    - intros e H; discriminate H.
    - intros r H; injection H as <-. intros e H; discriminate H. }
  destruct (lookup_tx_logs_what_it_raises
              (answer 404 (Ok example_response)) "ab12"
              (world_of blockchain_info) Ht) as (_ & H & _).
  destruct (H (ex_intro _ "error looking up transaction_id=ab12" eq_refl))
    as (msg & rec & E & _).
  exists msg, rec. exact E.
Defined.

(** X6 at the end-to-end example: the connector is as it was. *)
Lemma parse_tx_outcomes_witness :
  self (snd (parse_tx_of BlockchainInfo example_response
                         (world_of blockchain_info)))
  = blockchain_info.
Proof.
  exact (proj2 (proj2 (parse_tx_outcomes BlockchainInfo example_response
                         (world_of blockchain_info)))).
Defined.

(** ** Responses the loop does not go through *)

(** When the loop goes through [pre] and the turn on [o] raises, so does
    [parse_tx], and nothing is logged. *)
Lemma parse_tx_stops
      (p : provider) (raw : pyval) (pre post : list pyval) (o : pyval)
      (w : world) (e : exn) :
  outputs p raw = Ok (pre ++ o :: post)%list ->
  forallb (accepts p) pre = true ->
  (forall st, step p o st = Raise e) ->
  parse_tx_of p raw w = (Raise e, w).
Proof.
  intros Hout Hpre Hstep.
  rewrite parse_tx_run; unfold run; rewrite Hout.
  rewrite for_each_app, (loop_accepted _ _ _ _ Hpre).
  cbn [bind for_each]. rewrite Hstep. reflexivity.
Qed.

Lemma outputs_container (p : provider) (raw : pyval) :
  outputs p raw = x <- container p raw ;; iter x.
Proof.
  destruct p; unfold outputs, container; try reflexivity.
  destruct (getitem raw "data"); reflexivity.
Qed.

Lemma step_not_a_dict (p : provider) (o : pyval) (st : locals) :
  is_dict o = false -> step p o st = Raise AttributeError.
Proof.
  intros Hd. destruct st as [r s].
  destruct o; try discriminate Hd; destruct p; reflexivity.
Qed.

(** X9.  What a [parse_tx] does with the value it finds where the list
    of outputs should be.  A response that is not a dict raises
    [TypeError]; a dict without the first key raises [KeyError]; an
    empty list, an empty string and an empty dict are no outputs, so
    [InvalidTransactionError] is raised after logging; a string or a
    dict that is not empty is run over and its first element, a string,
    raises [AttributeError]; [None] and numbers are not run over and
    raise [TypeError]. *)
Theorem output_list_shapes (p : provider) (raw : pyval) (w : world) :
  (is_dict raw = false -> parse_tx_of p raw w = (Raise TypeError, w))
  /\ (forall d,
         raw = PDict d -> lookup (list_key p) d = None ->
         parse_tx_of p raw w = (Raise KeyError, w))
  /\ (forall x,
         container p raw = Ok x ->
         match x with
         | PList [] | PStr EmptyString | PDict [] =>
             parse_tx_of p raw w
             = (Raise (InvalidTransactionError missing_script),
                logged w (missing_script_record raw))
         | PStr (String _ _) | PDict (_ :: _) =>
             parse_tx_of p raw w = (Raise AttributeError, w)
         | PList (_ :: _) => True
         | PNone | PBool _ | PInt _ | PFloat _ =>
             parse_tx_of p raw w = (Raise TypeError, w)
         end).
Proof.
  split; [|split].
  - intros Hd. rewrite parse_tx_run; unfold run.
    destruct raw; try discriminate Hd; destruct p; reflexivity.
  - intros d -> Hk. rewrite parse_tx_run; unfold run.
    destruct p; cbn [outputs getitem list_key] in *; rewrite Hk;
      reflexivity.
  - intros x Hx.
    assert (Hout : outputs p raw = iter x).
    { rewrite outputs_container, Hx. reflexivity. }
    destruct x as [|b|z|f|[|c s]|[|o l]|[|kv d]]; cbn [iter] in Hout;
      try exact I;
      try (rewrite parse_tx_run; unfold run; rewrite Hout; reflexivity).
    + apply (parse_tx_stops p raw [] (chars s) (PStr (String c ""))
               w AttributeError Hout eq_refl).
      intros st; apply step_not_a_dict; reflexivity.
    + apply (parse_tx_stops p raw []
               (map (fun kv => PStr (fst kv)) d) (PStr (fst kv))
               w AttributeError Hout eq_refl).
      intros st; apply step_not_a_dict; reflexivity.
Qed.

(** Provider A: a response without ["out"], and one whose ["out"] is an
    empty list. *)
Lemma output_list_shapes_witness :
  parse_tx_of BlockchainInfo (PDict [("hash", PStr "ab12")])
              (world_of blockchain_info)
  = (Raise KeyError, world_of blockchain_info)
  /\ parse_tx_of BlockchainInfo (PDict [("out", PList [])])
                 (world_of blockchain_info)
     = (Raise (InvalidTransactionError missing_script),
        logged (world_of blockchain_info)
               (missing_script_record (PDict [("out", PList [])]))).
Proof.
  split.
  - apply (proj1 (proj2 (output_list_shapes BlockchainInfo
                           (PDict [("hash", PStr "ab12")])
                           (world_of blockchain_info)))
                 [("hash", PStr "ab12")] eq_refl eq_refl).
  - apply (proj2 (proj2 (output_list_shapes BlockchainInfo
                           (PDict [("out", PList [])])
                           (world_of blockchain_info)))
                 (PList []) eq_refl).
Defined.

(** X10.  An output that is not a dict stops the loop with
    [AttributeError], for every provider, once the outputs before it
    went through. *)
Theorem output_not_a_dict
        (p : provider) (raw : pyval) (pre post : list pyval) (o : pyval)
        (w : world) :
  outputs p raw = Ok (pre ++ o :: post)%list ->
  forallb (accepts p) pre = true ->
  is_dict o = false ->
  parse_tx_of p raw w = (Raise AttributeError, w).
Proof.
  intros Hout Hpre Hd.
  apply (parse_tx_stops p raw pre post o w AttributeError Hout Hpre).
  intros st; apply step_not_a_dict, Hd.
Qed.

(** Provider C: the anchoring output, then [null]. *)
Lemma output_not_a_dict_witness :
  parse_tx_of Blockcypher
    (PDict [("outputs",
             PList [PDict [("value", PInt 0); ("data_hex", PStr "abcd")];
                    PNone])])
    (world_of blockcypher)
  = (Raise AttributeError, world_of blockcypher).
Proof.
  apply (output_not_a_dict Blockcypher _
           [PDict [("value", PInt 0); ("data_hex", PStr "abcd")]] []
           PNone); reflexivity.
Defined.

(** X11.  An output with value zero that lacks the key it is subscripted
    with (["script"], ["extras"], ["data_hex"]) stops the loop with
    [KeyError]: the response does not count as one without a script. *)
Theorem anchor_without_script_field
        (p : provider) (raw : pyval) (pre post : list pyval)
        (d : list (string * pyval)) (w : world) :
  outputs p raw = Ok (pre ++ PDict d :: post)%list ->
  forallb (accepts p) pre = true ->
  zero_value p (PDict d) = Ok true ->
  lookup (script_key p) d = None ->
  parse_tx_of p raw w = (Raise KeyError, w).
Proof.
  intros Hout Hpre Hz Hk.
  apply (parse_tx_stops p raw pre post (PDict d) w KeyError Hout Hpre).
  intros [r s]. unfold step. rewrite Hz; cbn [bind].
  unfold anchor_script.
  destruct p; cbn [script_field getitem script_key] in *;
    rewrite Hk; reflexivity.
Qed.

(** Provider B: an output with amount zero and no ["extras"]. *)
Lemma anchor_without_script_field_witness :
  parse_tx_of BlockrIO
    (PDict [("data", PDict [("vouts", PList [PDict [("amount", PInt 0)]])])])
    (world_of blockr_io)
  = (Raise KeyError, world_of blockr_io).
Proof.
  apply (anchor_without_script_field BlockrIO _ [] []
           [("amount", PInt 0)]); reflexivity.
Defined.

Lemma drop_chars_short (n : nat) (s : string) :
  (String.length s <= n)%nat -> drop_chars n s = "".
Proof.
  revert s; induction n as [|n IH]; intros [|c s] H; cbn in *;
    try reflexivity; try lia.
  apply IH; lia.
Qed.

(** X12.  When the last output with value zero has a script string of
    at most four characters (providers A and B; an empty one for
    provider C), nothing is left of it and [parse_tx] logs and raises
    [InvalidTransactionError], also when an output with value zero
    before it has a longer script. *)
Theorem short_script_counts_as_missing
        (p : provider) (raw : pyval) (pre post : list pyval) (o : pyval)
        (s : string) (w : world) :
  outputs p raw = Ok (pre ++ o :: post)%list ->
  forallb (accepts p) (pre ++ post)%list = true ->
  zero_value p o = Ok true ->
  (forall o', In o' post -> zero_value p o' <> Ok true) ->
  script_field p o = Ok (PStr s) ->
  (String.length s <= match p with Blockcypher => 0 | _ => 4 end)%nat ->
  parse_tx_of p raw w
  = (Raise (InvalidTransactionError missing_script),
     logged w (missing_script_record raw)).
Proof.
  intros Hout Hacc Hz Hpost Hf Hlen.
  assert (Ha : anchor_script p o = Ok (PStr "")).
  { unfold anchor_script; rewrite Hf; cbn [bind].
    destruct p; cbn [slice_from]; try rewrite (drop_chars_short 4 s Hlen);
      try reflexivity.
    destruct s; [reflexivity | cbn in Hlen; lia]. }
  rewrite forallb_app in Hacc. apply andb_true_iff in Hacc as [Hpre Hp].
  rewrite parse_tx_run; unfold run; rewrite Hout.
  rewrite loop_accepted.
  - rewrite (script_after_last _ _ _ _ _ _ Hz Ha Hpost). reflexivity.
  - rewrite forallb_app; cbn [forallb]. rewrite Hpre, Hp.
    unfold accepts; rewrite Hz, Ha; reflexivity.
Qed.

(** Provider A: a script, then the four characters ["6a20"]. *)
Lemma short_script_counts_as_missing_witness :
  let raw :=
    PDict [("out",
            PList [PDict [("value", PInt 0); ("script", PStr "6a20aaaa")];
                   PDict [("value", PInt 0); ("script", PStr "6a20")]])] in
  parse_tx_of BlockchainInfo raw (world_of blockchain_info)
  = (Raise (InvalidTransactionError missing_script),
     logged (world_of blockchain_info) (missing_script_record raw)).
Proof.
  intros raw.
  refine (short_script_counts_as_missing BlockchainInfo raw
            [PDict [("value", PInt 0); ("script", PStr "6a20aaaa")]] []
            (PDict [("value", PInt 0); ("script", PStr "6a20")])
            "6a20" _ eq_refl eq_refl eq_refl _ eq_refl _).
  - intros o' [].
  - cbn. lia.
Defined.

(** ** Addresses and spent indicators *)

(** X13.  An output with a value other than zero that passes the spent
    check and whose address is a list or a dict stops the loop with
    [TypeError]: such a value cannot be a member of a set. *)
Theorem unhashable_address_raises
        (p : provider) (raw : pyval) (pre post : list pyval) (o a : pyval)
        (w : world) :
  outputs p raw = Ok (pre ++ o :: post)%list ->
  forallb (accepts p) pre = true ->
  zero_value p o = Ok false ->
  spent p o = Ok true ->
  address p o = Ok a ->
  hashable a = false ->
  parse_tx_of p raw w = (Raise TypeError, w).
Proof.
  intros Hout Hpre Hz Hs Ha Hh.
  apply (parse_tx_stops p raw pre post o w TypeError Hout Hpre).
  intros [r s]. unfold step, set_add.
  rewrite Hz, Hs, Ha; cbn [bind]. rewrite Hh. reflexivity.
Qed.

(** Provider A: a spent output whose ["addr"] is a list. *)
Lemma unhashable_address_raises_witness :
  parse_tx_of BlockchainInfo
    (PDict [("out",
             PList [PDict [("value", PInt 1000); ("spent", PBool true);
                           ("addr", PList [PStr "1ABC"])]])])
    (world_of blockchain_info)
  = (Raise TypeError, world_of blockchain_info).
Proof.
  apply (unhashable_address_raises BlockchainInfo _ [] []
           (PDict [("value", PInt 1000); ("spent", PBool true);
                   ("addr", PList [PStr "1ABC"])])
           (PList [PStr "1ABC"])); reflexivity.
Defined.

(** X14.  Under provider B an [is_spent] that counts as true goes
    through [float]: when [float] raises on it, so does [parse_tx], with
    the same exception. *)
Theorem blockr_is_spent_goes_through_float
        (raw : pyval) (pre post : list pyval) (d : list (string * pyval))
        (v : pyval) (e : exn) (w : world) :
  outputs BlockrIO raw = Ok (pre ++ PDict d :: post)%list ->
  forallb (accepts BlockrIO) pre = true ->
  zero_value BlockrIO (PDict d) = Ok false ->
  lookup "is_spent" d = Some v ->
  truthy v = true ->
  float v = Raise e ->
  parse_tx_of BlockrIO raw w = (Raise e, w).
Proof.
  intros Hout Hpre Hz Hd Hv Hf.
  apply (parse_tx_stops BlockrIO raw pre post (PDict d) w e Hout Hpre).
  intros [r s]. unfold step. rewrite Hz; cbn [bind spent get].
  rewrite Hd; cbn [bind]. rewrite Hv, Hf. reflexivity.
Qed.

(** An [is_spent] of ["yes"]. *)
Lemma blockr_is_spent_goes_through_float_witness :
  parse_tx_of BlockrIO
    (PDict [("data",
             PDict [("vouts",
                     PList [PDict [("amount", PInt 1000);
                                   ("is_spent", PStr "yes");
                                   ("address", PStr "1ABC")]])])])
    (world_of blockr_io)
  = (Raise ValueError, world_of blockr_io).
Proof.
  apply (blockr_is_spent_goes_through_float _ [] []
           [("amount", PInt 1000); ("is_spent", PStr "yes");
            ("address", PStr "1ABC")] (PStr "yes"));
    reflexivity.
Defined.

(** X15.  Under provider C a spent output with a value other than zero
    gives the first entry of its [addresses] to [revoked] and no other:
    the turn of the loop is the same whatever follows the first entry;
    with an empty list the turn raises [IndexError]. *)
Theorem blockcypher_first_address_only
        (d : list (string * pyval)) (v : pyval) :
  zero_value Blockcypher (PDict d) = Ok false ->
  lookup "spent_by" d = Some v ->
  truthy v = true ->
  (forall a rest r s,
      lookup "addresses" d = Some (PList (a :: rest)) ->
      loop_body_of Blockcypher (PDict d) (r, s)
      = (r' <- set_add r a ;; Ok (r', s)))
  /\ (lookup "addresses" d = Some (PList []) ->
      forall raw pre post w,
        outputs Blockcypher raw = Ok (pre ++ PDict d :: post)%list ->
        forallb (accepts Blockcypher) pre = true ->
        parse_tx_of Blockcypher raw w = (Raise IndexError, w)).
Proof.
  intros Hz Hsp Hv. split.
  - intros a rest r s Ha. rewrite loop_body_step. unfold step.
    rewrite Hz; cbn [bind spent address get].
    rewrite Hsp, Ha; cbn [bind getitem0]. rewrite Hv. reflexivity.
  - intros Ha raw pre post w Hout Hpre.
    apply (parse_tx_stops Blockcypher raw pre post (PDict d) w IndexError
             Hout Hpre).
    intros [r s]. unfold step.
    rewrite Hz; cbn [bind spent address get].
    rewrite Hsp, Ha; cbn [bind getitem0]. rewrite Hv. reflexivity.
Qed.

(** An output with two addresses: the first one is revoked. *)
Lemma blockcypher_first_address_only_witness :
  loop_body_of Blockcypher
    (PDict [("value", PInt 1000); ("spent_by", PStr "f00d");
            ("addresses", PList [PStr "1ABC"; PStr "1DEF"])])
    ([], PNone)
  = Ok ([PStr "1ABC"], PNone).
Proof.
  exact (proj1 (blockcypher_first_address_only
                  [("value", PInt 1000); ("spent_by", PStr "f00d");
                   ("addresses", PList [PStr "1ABC"; PStr "1DEF"])]
                  (PStr "f00d") eq_refl eq_refl eq_refl)
               (PStr "1ABC") [PStr "1DEF"] [] PNone eq_refl).
Defined.

(** X16.  Provider C returns the [data_hex] of the last output with
    value zero as it is, whatever kind of value it is, when it counts as
    true; when it counts as false (an empty string, [None], a zero,
    [False], an empty list or dict) the script counts as missing. *)
Theorem blockcypher_data_hex_unchecked
        (raw : pyval) (pre post : list pyval) (d : list (string * pyval))
        (v : pyval) (w : world) :
  outputs Blockcypher raw = Ok (pre ++ PDict d :: post)%list ->
  forallb (accepts Blockcypher) pre = true ->
  forallb (plain Blockcypher) post = true ->
  zero_value Blockcypher (PDict d) = Ok true ->
  lookup "data_hex" d = Some v ->
  parse_tx_of Blockcypher raw w
  = if truthy v
    then (Ok {| revoked_addresses :=
                  revoked_after Blockcypher (pre ++ post)%list [];
                script := v |}, w)
    else (Raise (InvalidTransactionError missing_script),
          logged w (missing_script_record raw)).
Proof.
  intros Hout Hpre Hpost Hz Hd.
  assert (Ha : anchor_script Blockcypher (PDict d) = Ok v).
  { unfold anchor_script; cbn [script_field getitem]. rewrite Hd.
    reflexivity. }
  rewrite parse_tx_run; unfold run; rewrite Hout.
  rewrite loop_accepted.
  - rewrite (script_after_last _ _ _ _ _ _ Hz Ha (plain_not_zero _ _ Hpost)).
    rewrite (revoked_after_zero _ _ _ _ _ Hz). reflexivity.
  - rewrite forallb_app; cbn [forallb].
    rewrite Hpre, (plain_all_accepts _ _ Hpost).
    unfold accepts; rewrite Hz, Ha; reflexivity.
Qed.

(** A [data_hex] that is the number 5. *)
Lemma blockcypher_data_hex_unchecked_witness :
  parse_tx_of Blockcypher
    (PDict [("outputs",
             PList [PDict [("value", PInt 0); ("data_hex", PInt 5)]])])
    (world_of blockcypher)
  = (Ok {| revoked_addresses := []; script := PInt 5 |},
     world_of blockcypher).
Proof.
  apply (blockcypher_data_hex_unchecked _ [] []
           [("value", PInt 0); ("data_hex", PInt 5)] (PInt 5));
    reflexivity.
Defined.

(** ** The set of revoked addresses *)

Lemma add_distinct (a : pyval) (s : pyset) :
  hashable a = true ->
  NoDup (map key s) -> forallb hashable s = true ->
  NoDup (map key (add a s)) /\ forallb hashable (add a s) = true.
Proof.
  intros Ha Hnd Hh. unfold add.
  destruct (set_mem a s) eqn:Hm; [auto|]. split.
  - rewrite map_app. apply NoDup_app; [exact Hnd | | ].
    + cbn [map]. constructor; [intros []|constructor].
    + intros k Hk [<-|[]]. apply in_map_iff in Hk as (b & Hb & Hin).
      assert (set_mem a s = true); [|congruence].
      apply set_mem_In. exists b. split; [exact Hin|].
      rewrite Hb. apply key_eqb_refl, Ha.
  - rewrite forallb_app, Hh; cbn [forallb]. rewrite Ha. reflexivity.
Qed.

Lemma revoked_after_distinct (p : provider) (l : list pyval) :
  forall r,
    forallb (accepts p) l = true ->
    NoDup (map key r) -> forallb hashable r = true ->
    NoDup (map key (revoked_after p l r))
    /\ forallb hashable (revoked_after p l r) = true.
Proof.
  induction l as [|o l IH]; intros r Hacc Hnd Hh; cbn [revoked_after].
  - auto.
  - cbn [forallb] in Hacc. apply andb_true_iff in Hacc as [Ho Hl].
    unfold accepts in Ho.
    destruct (zero_value p o) as [[|]|]; try discriminate; auto.
    destruct (spent p o) as [[|]|]; try discriminate; auto.
    destruct (address p o) as [a|]; try discriminate.
    destruct (add_distinct a r Ho Hnd Hh) as [Hnd' Hh']. auto.
Qed.

(** X17.  The revoked addresses of a result are a set: no two members
    are equal in Python ([1], [1.0] and [True] count as one), however
    often an address occurs among the outputs, and every member is
    hashable. *)
Theorem revoked_members_distinct
        (p : provider) (raw : pyval) (w w' : world) (res : TransactionData) :
  parse_tx_of p raw w = (Ok res, w') ->
  NoDup (map key (revoked_addresses res))
  /\ forallb hashable (revoked_addresses res) = true.
Proof.
  intros H. destruct (parse_tx_returns _ _ _ _ _ H) as (outs & _ & Hacc & -> & _).
  apply revoked_after_distinct; [exact Hacc | constructor | reflexivity].
Qed.

(** Provider A: two spent outputs with the same address. *)
Lemma revoked_members_distinct_witness :
  parse_tx_of BlockchainInfo
    (PDict [("out",
             PList [PDict [("value", PInt 0); ("script", PStr "6a20abcd")];
                    PDict [("value", PInt 1); ("spent", PBool true);
                           ("addr", PStr "1ABC")];
                    PDict [("value", PInt 2); ("spent", PBool true);
                           ("addr", PStr "1ABC")]])])
    (world_of blockchain_info)
  = (Ok {| revoked_addresses := [PStr "1ABC"]; script := PStr "abcd" |},
     world_of blockchain_info)
  /\ NoDup (map key [PStr "1ABC"]).
Proof.
  split; [reflexivity|].
  apply (revoked_members_distinct BlockchainInfo
           (PDict [("out",
             PList [PDict [("value", PInt 0); ("script", PStr "6a20abcd")];
                    PDict [("value", PInt 1); ("spent", PBool true);
                           ("addr", PStr "1ABC")];
                    PDict [("value", PInt 2); ("spent", PBool true);
                           ("addr", PStr "1ABC")]])])
           (world_of blockchain_info) (world_of blockchain_info)
           {| revoked_addresses := [PStr "1ABC"]; script := PStr "abcd" |}
           eq_refl).
Defined.

(** X18.  The order of the outputs has no say in which addresses are
    revoked: when two responses hold the same outputs in different
    orders and [parse_tx] returns on both, the two results have the same
    revoked addresses as sets (the script is another matter, it comes
    from the last output with value zero). *)
Theorem revoked_order_irrelevant
        (p : provider) (raw raw' : pyval) (outs outs' : list pyval)
        (w1 w1' w2 w2' : world) (res res' : TransactionData) :
  outputs p raw = Ok outs ->
  outputs p raw' = Ok outs' ->
  Permutation outs outs' ->
  parse_tx_of p raw w1 = (Ok res, w1') ->
  parse_tx_of p raw' w2 = (Ok res', w2') ->
  forall x,
    set_mem x (revoked_addresses res) = true
    <-> set_mem x (revoked_addresses res') = true.
Proof.
  intros Hout Hout' Hperm H H' x.
  destruct (parse_tx_returns _ _ _ _ _ H) as (l & Hl & _ & -> & _).
  destruct (parse_tx_returns _ _ _ _ _ H') as (l' & Hl' & _ & -> & _).
  rewrite Hout in Hl; injection Hl as <-.
  rewrite Hout' in Hl'; injection Hl' as <-.
  rewrite !revoked_after_mem.
  split; (intros [E|(o & a & Hin & Hrest)]; [left; exact E|]);
    right; exists o, a; (split; [|exact Hrest]).
  - apply (Permutation_in _ Hperm), Hin.
  - apply (Permutation_in _ (Permutation_sym Hperm)), Hin.
Qed.

(** Provider A: the anchoring output first, and last. *)
Lemma revoked_order_irrelevant_witness :
  set_mem (PStr "1ABC") [PStr "1ABC"; PStr "1DEF"] = true
  <-> set_mem (PStr "1ABC") [PStr "1DEF"; PStr "1ABC"] = true.
Proof.
  pose (a := PDict [("value", PInt 0); ("script", PStr "6a20abcd")]).
  pose (b := PDict [("value", PInt 1); ("spent", PBool true);
                    ("addr", PStr "1ABC")]).
  pose (c := PDict [("value", PInt 2); ("spent", PBool true);
                    ("addr", PStr "1DEF")]).
  apply (revoked_order_irrelevant BlockchainInfo
           (PDict [("out", PList [a; b; c])])
           (PDict [("out", PList [c; b; a])])
           [a; b; c] [c; b; a]
           (world_of blockchain_info) (world_of blockchain_info)
           (world_of blockchain_info) (world_of blockchain_info)
           {| revoked_addresses := [PStr "1ABC"; PStr "1DEF"];
              script := PStr "abcd" |}
           {| revoked_addresses := [PStr "1DEF"; PStr "1ABC"];
              script := PStr "abcd" |}
           eq_refl eq_refl).
  - apply (Permutation_rev [a; b; c]).
  - reflexivity.
  - reflexivity.
Defined.

(** ** The zero test on a float *)

(** X19.  On a float that is finite and not zero the zero test of
    provider A, which goes through [int], holds exactly when the float
    is strictly between -1 and 1; the zero test of providers B and C,
    which goes through [float], never holds.  So provider A takes an
    output with value 0.5 for the anchoring output and providers B and C
    do not. *)
Theorem blockchain_info_truncates
        (p : provider) (d : list (string * pyval))
        (s : bool) (m : positive) (e : Z) :
  lookup (value_field p) d = Some (PFloat (S754_finite s m e)) ->
  zero_value p (PDict d)
  = Ok match p with
       | BlockchainInfo => (e <? 0) && (Zpos m <? 2 ^ (- e))
       | _ => false
       end.
Proof.
  intros Hd.
  assert (Hbc : p <> BlockchainInfo ->
                zero_value p (PDict d) = Ok false).
  { intros Hp. rewrite (zero_value_float p d _ Hp Hd). reflexivity. }
  destruct p; [|apply Hbc; discriminate|apply Hbc; discriminate].
  clear Hbc. cbn [zero_value value_field get] in *. rewrite Hd.
  cbn [bind int int_of_float]. f_equal.
  destruct (0 <=? e) eqn:E.
  - apply Z.leb_le in E.
    assert (0 < Zpos m * 2 ^ e) by (apply Z.mul_pos_pos; lia).
    replace (e <? 0) with false by (symmetry; apply Z.ltb_ge; lia).
    apply Z.eqb_neq. destruct s; cbn [cond_Zopp]; lia.
  - apply Z.leb_gt in E.
    replace (e <? 0) with true by (symmetry; apply Z.ltb_lt; lia).
    cbn [andb].
    assert (Hp : 0 < 2 ^ (- e)) by (apply Z.pow_pos_nonneg; lia).
    destruct (Zpos m <? 2 ^ (- e)) eqn:L.
    + apply Z.ltb_lt in L. rewrite Z.div_small by lia.
      destruct s; reflexivity.
    + apply Z.ltb_ge in L.
      assert (0 < Zpos m / 2 ^ (- e)) by (apply Z.div_str_pos; lia).
      apply Z.eqb_neq. destruct s; cbn [cond_Zopp]; lia.
Qed.

(** The value 0.5, under provider A and under provider C. *)
Lemma blockchain_info_truncates_witness :
  zero_value BlockchainInfo
    (PDict [("value", PFloat (S754_finite false 4503599627370496 (-53)))])
  = Ok true
  /\ zero_value Blockcypher
       (PDict [("value", PFloat (S754_finite false 4503599627370496 (-53)))])
     = Ok false.
Proof.
  split.
  - exact (blockchain_info_truncates BlockchainInfo
             [("value", PFloat (S754_finite false 4503599627370496 (-53)))]
             false 4503599627370496 (-53) eq_refl).
  - exact (blockchain_info_truncates Blockcypher
             [("value", PFloat (S754_finite false 4503599627370496 (-53)))]
             false 4503599627370496 (-53) eq_refl).
Defined.
